(** * FarmKonnect Python SDK: the request engine and its facades

    A shallow embedding of [sdk/python/farmkonnect/__init__.py]:
    the [APIError] exception, [BaseClient] with its header construction
    and token operations, the blocking engine [FarmKonnectClient.request],
    the non-blocking engine [AsyncFarmKonnectClient.request], and the
    facade methods that build query parameters from optional filters.

    The HTTP libraries ([requests], [aiohttp]) are the environment: one
    transport call is an oracle that, for the i-th call and the request
    sent, either raises or hands back a response object.  What the engine
    does with that object is translated statement by statement. *)

From Stdlib Require Import ZArith QArith String List Lia.
From stdpp Require Import gmap strings list fin_maps.

#[local] Set Warnings "-register-all".
#[local] Open Scope Z_scope.

(** ** Python values *)

(** The values that travel through the SDK: parsed JSON bodies, query
    parameters and request bodies.  A [dict] with string keys is a
    [gmap string value]. *)
Inductive value : Type :=
  | VNone
  | VBool (b : bool)
  | VInt (z : Z)
  | VFloat (q : Q)
  | VStr (s : string)
  | VList (l : list value)
  | VDict (d : gmap string value).

(** Truthiness of a string, as tested by [if s:]. *)
Definition str_truthy (s : string) : bool := negb (String.eqb s "").

(** Truthiness of a [dict], as tested by [d or {}]. *)
Definition dict_truthy (d : gmap string value) : bool :=
  negb (bool_decide (d = ∅)).

(** Truthiness of a float, as tested by [if x:]. *)
Definition float_truthy (q : Q) : bool := negb (Qeq_bool q 0).

(** ** Exceptions *)

(** [class APIError(Exception)]: the three attributes set by [__init__]. *)
Record APIError : Type := mkAPIError {
  message : value;
  status_code : Z;
  details : gmap string value
}.

(** [APIError.__init__(message, status_code, details=None)]:
    [self.details = details or {}]. *)
Definition APIError_init (message : value) (status_code : Z)
    (details : option (gmap string value)) : APIError :=
  {| message := message;
     status_code := status_code;
     details := match details with
                | Some d => if dict_truthy d then d else ∅
                | None => ∅
                end |}.

(** An exception raised by the HTTP library.  [transport_error] says
    whether it is an instance of the class the engine's [except] clause
    names ([requests.RequestException] in the blocking engine,
    [aiohttp.ClientError] in the non-blocking one); [descr] is [str(e)].
    The two classes are unrelated, and the same trouble on the wire
    need not fall on the same side of them: an expired timeout is a
    [requests.Timeout], which is a [RequestException], on the blocking
    side, and an [asyncio.TimeoutError], which is no [ClientError], on
    the non-blocking one. *)
Record lib_exn : Type := mkLibExn {
  transport_error : bool;
  descr : string
}.

(** Everything that can be raised inside [request]. *)
Inductive exc : Type :=
  | ExcAPIError (e : APIError)
  | ExcLib (e : lib_exn)
  | ExcAttributeError
  | ExcOverflowError.

(** [isinstance(x, requests.RequestException)], resp.
    [isinstance(x, aiohttp.ClientError)]: [APIError] derives from
    [Exception] only; [AttributeError] and [OverflowError] are
    built-in exceptions. *)
Definition caught (x : exc) : option lib_exn :=
  match x with
  | ExcLib e => if transport_error e then Some e else None
  | ExcAPIError _ => None
  | ExcAttributeError => None
  | ExcOverflowError => None
  end.

(** A computation that returns or raises. *)
Inductive result (A : Type) : Type :=
  | Ok (a : A)
  | Raise (x : exc).
Arguments Ok {A} a.
Arguments Raise {A} x.

#[global] Instance result_ret : MRet result := @Ok.

#[global] Instance result_bind : MBind result :=
  fun A B (k : A -> result B) (m : result A) =>
    match m with
    | Ok a => k a
    | Raise x => Raise x
    end.

(** ** The transport *)

(** What the engine reads off a response object.  [json] is what calling
    [response.json()] does on it: it returns a value or raises.
    ([aiohttp] names the status attribute [status].) *)
Record Response : Type := mkResponse {
  ok : bool;
  resp_status : Z;
  text : string;
  content_type : string;
  json : result value
}.

(** The request handed to [requests.request] / [session.request]. *)
Record Request : Type := mkRequest {
  req_method : string;
  req_url : string;
  req_json : option (gmap string value);
  req_params : option (gmap string value);
  req_headers : gmap string string;
  req_timeout : Z
}.

(** One transport call: the library raises, or a response comes back. *)
Inductive exchange : Type :=
  | Fails (e : lib_exn)
  | Responds (r : Response).

(** The environment: the outcome of the i-th transport call (counting
    from 0) of one [request], given the request that was sent. *)
Definition transport : Type := nat -> Request -> exchange.

(** What an observer sees of one [request]: the transport calls made
    and the sleeps slept through. *)
Inductive event : Type :=
  | Attempt (r : Request)
  | Sleep (d : Q).

(** How [request] ends; [Hangs] when it does not, because it went to
    sleep for ever. *)
Inductive outcome : Type :=
  | Returns (v : value)
  | Raises (x : exc)
  | Hangs.

(** ** BaseClient *)

(** [retry_delay] is a finite float, given by its exact value. *)
Record BaseClient : Type := mkBaseClient {
  base_url : string;
  token : option string;
  timeout : Z;
  retry_attempts : Z;
  retry_delay : Q
}.

(** [BaseClient.__init__] with its defaults. *)
Definition BaseClient_default : BaseClient :=
  {| base_url := "http://localhost:3001";
     token := None;
     timeout := 30;
     retry_attempts := 3;
     retry_delay := 1 |}.

(** [extra_headers or {}]. *)
Definition or_empty (extra_headers : option (gmap string string))
    : gmap string string :=
  match extra_headers with
  | Some h => h
  | None => ∅
  end.

(** [BaseClient._get_headers]: the dict display lists ['Content-Type']
    first and then unpacks the caller's headers, so a caller's key
    replaces the default; the token is tested for truthiness. *)
Definition _get_headers (self : BaseClient)
    (extra_headers : option (gmap string string)) : gmap string string :=
  let headers :=
    or_empty extra_headers ∪ {[ "Content-Type" := "application/json" ]} in
  match token self with
  | Some t =>
      if str_truthy t
      then <[ "Authorization" := "Bearer " +:+ t ]> headers
      else headers
  | None => headers
  end.

Definition set_token (self : BaseClient) (t : string) : BaseClient :=
  {| base_url := base_url self;
     token := Some t;
     timeout := timeout self;
     retry_attempts := retry_attempts self;
     retry_delay := retry_delay self |}.

Definition clear_token (self : BaseClient) : BaseClient :=
  {| base_url := base_url self;
     token := None;
     timeout := timeout self;
     retry_attempts := retry_attempts self;
     retry_delay := retry_delay self |}.

(** The exact value of [self.retry_delay * (2 ** attempt)]. *)
Definition backoff (self : BaseClient) (attempt : nat) : Q :=
  (retry_delay self * inject_Z (2 ^ Z.of_nat attempt))%Q.

(** Finite floats lie strictly between [- 2 ^ 1024] and [2 ^ 1024]. *)
Definition float_limit : Q := inject_Z (2 ^ 1024).

(** What [asyncio.sleep(self.retry_delay * (2 ** attempt))] does. *)
Inductive sleep_result : Type :=
  | Slept (d : Q)
  | SleepOverflow
  | SleepForever.

(** The integer [2 ** attempt] is converted to a float for the
    product, which raises [OverflowError] from [2 ** 1024] on.  The
    product of a float and a power of two is exact while it is finite;
    from [2 ^ 1024] on it is [inf], and a sleep of [inf] seconds never
    returns.  A product at or below [- 2 ^ 1024] is [-inf]: like every
    delay that is not positive it makes [asyncio.sleep] return at
    once, and it is recorded by its exact value. *)
Definition backoff_sleep (self : BaseClient) (attempt : nat) : sleep_result :=
  if (1024 <=? attempt)%nat then SleepOverflow
  else if Qle_bool float_limit (backoff self attempt) then SleepForever
  else Slept (backoff self attempt).

(** The first [k] backoff sleeps of a run return: each power of two
    converts to a float and each product is below the float limit. *)
Definition sleeps_return (self : BaseClient) (k : nat) : Prop :=
  (k <= 1024)%nat
  /\ forall j, (j < k)%nat -> (backoff self j < float_limit)%Q.

(** ** The two engines *)

(** [error_data.get('message', 'Request failed')] followed by the
    [raise APIError(...)] of the non-success branch.  Only a [dict] has
    a [get] method. *)
Definition raise_for_error_data (error_data : value) (status : Z)
    : result value :=
  match error_data with
  | VDict d =>
      Raise (ExcAPIError
               (APIError_init (default (VStr "Request failed") (d !! "message"))
                              status (Some d)))
  | _ => Raise ExcAttributeError
  end.

(** The body of the [try] block of [FarmKonnectClient.request], after
    [requests.request] has raised or returned. *)
Definition sync_try (x : exchange) : result value :=
  match x with
  | Fails e => Raise (ExcLib e)
  | Responds response =>
      if negb (ok response) then
        error_data ← (if str_truthy (text response)
                      then json response
                      else Ok (VDict ∅));
        raise_for_error_data error_data (resp_status response)
      else json response
  end.

(** The body of the [try] block of [AsyncFarmKonnectClient.request]. *)
Definition async_try (x : exchange) : result value :=
  match x with
  | Fails e => Raise (ExcLib e)
  | Responds response =>
      if negb (ok response) then
        error_data ← (if String.eqb (content_type response) "application/json"
                      then json response
                      else Ok (VDict ∅));
        raise_for_error_data error_data (resp_status response)
      else json response
  end.

(** A connection context of the non-blocking client: an object with
    an identity of its own. *)
Inductive ClientSession : Type := Session (id : nat).

Record AsyncFarmKonnectClient : Type := mkAsyncClient {
  async_base : BaseClient;
  session : option ClientSession
}.

(** [if not self.session: self.session = aiohttp.ClientSession()],
    where [new_session] is the object the constructor would return. *)
Definition ensure_session (new_session : ClientSession)
    (self : AsyncFarmKonnectClient) : AsyncFarmKonnectClient :=
  match session self with
  | Some _ => self
  | None => {| async_base := async_base self;
               session := Some new_session |}
  end.

Section Engine.

(** [urllib.parse.urljoin] is taken as given. *)
Variable urljoin : string -> string -> string.

Variable env : transport.

(** The arguments of one [request] call. *)
Variables (method path : string).
Variables (data params : option (gmap string value)).
Variable headers : option (gmap string string).

(** The keyword arguments of the transport call. *)
Definition build_request (self : BaseClient) : Request :=
  {| req_method := method;
     req_url := urljoin (base_url self) path;
     req_json := data;
     req_params := params;
     req_headers := _get_headers self headers;
     req_timeout := timeout self |}.

(** [for attempt in range(self.retry_attempts)] of
    [FarmKonnectClient.request]: [fuel] iterations are left and the next
    one has index [attempt].  Falling out of the loop ends the function,
    which then returns [None].  An exception raised while the [except]
    clause is at work leaves the function. *)
Fixpoint request_loop (self : BaseClient) (fuel attempt : nat)
    : outcome * list event :=
  match fuel with
  | O => (Returns VNone, [])
  | S fuel' =>
      let req := build_request self in
      match sync_try (env attempt req) with
      | Ok body => (Returns body, [Attempt req])
      | Raise x =>
          match caught x with
          | Some e =>
              if Z.of_nat attempt <? retry_attempts self - 1 then
                match backoff_sleep self attempt with
                | Slept d =>
                    let '(o, tr) := request_loop self fuel' (S attempt) in
                    (o, Attempt req :: Sleep d :: tr)
                | SleepOverflow => (Raises ExcOverflowError, [Attempt req])
                | SleepForever => (Hangs, [Attempt req])
                end
              else
                (Raises (ExcAPIError (APIError_init (VStr (descr e)) 0 None)),
                 [Attempt req])
          | None => (Raises x, [Attempt req])
          end
      end
  end.

(** [FarmKonnectClient.request]. *)
Definition request (self : BaseClient) : outcome * list event :=
  request_loop self (Z.to_nat (retry_attempts self)) 0.

(** The loop of [AsyncFarmKonnectClient.request]. *)
Fixpoint async_request_loop (self : BaseClient) (fuel attempt : nat)
    : outcome * list event :=
  match fuel with
  | O => (Returns VNone, [])
  | S fuel' =>
      let req := build_request self in
      match async_try (env attempt req) with
      | Ok body => (Returns body, [Attempt req])
      | Raise x =>
          match caught x with
          | Some e =>
              if Z.of_nat attempt <? retry_attempts self - 1 then
                match backoff_sleep self attempt with
                | Slept d =>
                    let '(o, tr) :=
                      async_request_loop self fuel' (S attempt) in
                    (o, Attempt req :: Sleep d :: tr)
                | SleepOverflow => (Raises ExcOverflowError, [Attempt req])
                | SleepForever => (Hangs, [Attempt req])
                end
              else
                (Raises (ExcAPIError (APIError_init (VStr (descr e)) 0 None)),
                 [Attempt req])
          | None => (Raises x, [Attempt req])
          end
      end
  end.

(** [AsyncFarmKonnectClient.request]: the session is created on first
    use and kept on the client. *)
Definition async_request (new_session : ClientSession)
    (self : AsyncFarmKonnectClient)
    : outcome * list event * AsyncFarmKonnectClient :=
  let self' := ensure_session new_session self in
  (async_request_loop (async_base self')
     (Z.to_nat (retry_attempts (async_base self'))) 0,
   self').

End Engine.

(** ** Observing a run *)

(** The number of transport calls in a trace. *)
Fixpoint attempts (tr : list event) : nat :=
  match tr with
  | [] => O
  | Attempt _ :: tr' => S (attempts tr')
  | Sleep _ :: tr' => attempts tr'
  end.

(** The delays slept through, in order. *)
Fixpoint delays (tr : list event) : list Q :=
  match tr with
  | [] => []
  | Attempt _ :: tr' => delays tr'
  | Sleep d :: tr' => d :: delays tr'
  end.

(** The delays that lie between transport call [k - 1] and transport
    call [k] of a trace, calls counted from 1; [acc] collects the delays
    seen since the last call.  [None] when the trace has no call [k]. *)
Fixpoint delays_before_from (acc : list Q) (k : nat) (tr : list event)
    : option (list Q) :=
  match tr with
  | [] => None
  | Sleep d :: tr' => delays_before_from (acc ++ [d]) k tr'
  | Attempt _ :: tr' =>
      match k with
      | O => None
      | S O => Some acc
      | S k' => delays_before_from [] k' tr'
      end
  end.

Definition delays_before (k : nat) (tr : list event) : option (list Q) :=
  delays_before_from [] k tr.

(** The trace of [m] transport calls that all send [req], the first one
    on loop iteration [i], with the engine's backoff between
    consecutive calls. *)
Fixpoint backoff_trace (self : BaseClient) (req : Request) (i m : nat)
    : list event :=
  match m with
  | O => []
  | S O => [Attempt req]
  | S m' => Attempt req :: Sleep (backoff self i) :: backoff_trace self req (S i) m'
  end.

(** ** Facades *)

(** Each facade method builds its [params] dict and hands it to the
    client's [request]; the dict built before the [return] is the
    [_params] function, the [return] statement the method itself. *)

Module FarmsAPI.

Definition get (urljoin : string -> string -> string) (env : transport)
    (client : BaseClient) (farm_id : Z) :=
  request urljoin env "GET" "/api/trpc/farms.get"
          None (Some {[ "id" := VInt farm_id ]}) None client.

Definition create (urljoin : string -> string -> string) (env : transport)
    (client : BaseClient) (data : gmap string value) :=
  request urljoin env "POST" "/api/trpc/farms.create"
          (Some data) None None client.

Definition update (urljoin : string -> string -> string) (env : transport)
    (client : BaseClient) (farm_id : Z) (data : gmap string value) :=
  request urljoin env "PUT" "/api/trpc/farms.update"
          (Some data) (Some {[ "id" := VInt farm_id ]}) None client.

Definition delete (urljoin : string -> string -> string) (env : transport)
    (client : BaseClient) (farm_id : Z) :=
  request urljoin env "DELETE" "/api/trpc/farms.delete"
          None (Some {[ "id" := VInt farm_id ]}) None client.

(** [limit] and [offset] default to 10 and 0. *)
Definition list (urljoin : string -> string -> string) (env : transport)
    (client : BaseClient) (limit offset : Z) :=
  request urljoin env "GET" "/api/trpc/farms.list"
          None (Some (<[ "offset" := VInt offset ]> {[ "limit" := VInt limit ]}))
          None client.

End FarmsAPI.

Module CropsAPI.

Definition get (urljoin : string -> string -> string) (env : transport)
    (client : BaseClient) (crop_id : Z) :=
  request urljoin env "GET" "/api/trpc/crops.get"
          None (Some {[ "id" := VInt crop_id ]}) None client.

Definition create (urljoin : string -> string -> string) (env : transport)
    (client : BaseClient) (data : gmap string value) :=
  request urljoin env "POST" "/api/trpc/crops.create"
          (Some data) None None client.

Definition get_analytics (urljoin : string -> string -> string)
    (env : transport) (client : BaseClient) (crop_id : Z) :=
  request urljoin env "GET" "/api/trpc/crops.getAnalytics"
          None (Some {[ "cropId" := VInt crop_id ]}) None client.

Definition get_soil_tests (urljoin : string -> string -> string)
    (env : transport) (client : BaseClient) (crop_id : Z) :=
  request urljoin env "GET" "/api/trpc/crops.getSoilTests"
          None (Some {[ "cropId" := VInt crop_id ]}) None client.

Definition get_yield_records (urljoin : string -> string -> string)
    (env : transport) (client : BaseClient) (crop_id : Z) :=
  request urljoin env "GET" "/api/trpc/crops.getYieldRecords"
          None (Some {[ "cropId" := VInt crop_id ]}) None client.

Definition list_params (farm_id : Z) (status : option string)
    : gmap string value :=
  let params : gmap string value := {[ "farmId" := VInt farm_id ]} in
  match status with
  | Some s => if str_truthy s then <[ "status" := VStr s ]> params else params
  | None => params
  end.

Definition list (urljoin : string -> string -> string) (env : transport)
    (client : BaseClient) (farm_id : Z) (status : option string) :=
  request urljoin env "GET" "/api/trpc/crops.list"
          None (Some (list_params farm_id status)) None client.

End CropsAPI.

Module MarketplaceAPI.

Definition get_product (urljoin : string -> string -> string)
    (env : transport) (client : BaseClient) (product_id : Z) :=
  request urljoin env "GET" "/api/trpc/marketplace.getProduct"
          None (Some {[ "id" := VInt product_id ]}) None client.

Definition create_order (urljoin : string -> string -> string)
    (env : transport) (client : BaseClient) (data : gmap string value) :=
  request urljoin env "POST" "/api/trpc/marketplace.createOrder"
          (Some data) None None client.

Definition get_orders (urljoin : string -> string -> string)
    (env : transport) (client : BaseClient) :=
  request urljoin env "GET" "/api/trpc/marketplace.getOrders"
          None None None client.

Definition get_cart (urljoin : string -> string -> string)
    (env : transport) (client : BaseClient) :=
  request urljoin env "GET" "/api/trpc/marketplace.getCart"
          None None None client.

Definition add_to_cart (urljoin : string -> string -> string)
    (env : transport) (client : BaseClient) (product_id quantity : Z) :=
  request urljoin env "POST" "/api/trpc/marketplace.addToCart"
          (Some (<[ "quantity" := VInt quantity ]>
                   {[ "productId" := VInt product_id ]}))
          None None client.

Definition remove_from_cart (urljoin : string -> string -> string)
    (env : transport) (client : BaseClient) (product_id : Z) :=
  request urljoin env "POST" "/api/trpc/marketplace.removeFromCart"
          (Some {[ "productId" := VInt product_id ]}) None None client.

Definition list_products_params (search category : option string)
    (min_price max_price : option Q) : gmap string value :=
  let params : gmap string value := ∅ in
  let params :=
    match search with
    | Some s => if str_truthy s then <[ "search" := VStr s ]> params else params
    | None => params
    end in
  let params :=
    match category with
    | Some s => if str_truthy s then <[ "category" := VStr s ]> params else params
    | None => params
    end in
  let params :=
    match min_price with
    | Some p => if float_truthy p then <[ "minPrice" := VFloat p ]> params else params
    | None => params
    end in
  let params :=
    match max_price with
    | Some p => if float_truthy p then <[ "maxPrice" := VFloat p ]> params else params
    | None => params
    end in
  params.

Definition list_products (urljoin : string -> string -> string)
    (env : transport) (client : BaseClient) (search category : option string)
    (min_price max_price : option Q) :=
  request urljoin env "GET" "/api/trpc/marketplace.products"
          None (Some (list_products_params search category min_price max_price))
          None client.

End MarketplaceAPI.

Module NotificationsAPI.

Definition mark_as_read (urljoin : string -> string -> string)
    (env : transport) (client : BaseClient) (notification_id : Z) :=
  request urljoin env "POST" "/api/trpc/notifications.markAsRead"
          None (Some {[ "id" := VInt notification_id ]}) None client.

Definition mark_all_as_read (urljoin : string -> string -> string)
    (env : transport) (client : BaseClient) :=
  request urljoin env "POST" "/api/trpc/notifications.markAllAsRead"
          None None None client.

Definition delete (urljoin : string -> string -> string)
    (env : transport) (client : BaseClient) (notification_id : Z) :=
  request urljoin env "DELETE" "/api/trpc/notifications.delete"
          None (Some {[ "id" := VInt notification_id ]}) None client.

Definition get_preferences (urljoin : string -> string -> string)
    (env : transport) (client : BaseClient) :=
  request urljoin env "GET" "/api/trpc/notifications.getPreferences"
          None None None client.

Definition update_preferences (urljoin : string -> string -> string)
    (env : transport) (client : BaseClient) (data : gmap string value) :=
  request urljoin env "PUT" "/api/trpc/notifications.updatePreferences"
          (Some data) None None client.

(** The one filter that is tested with [is not None]. *)
Definition list_params (limit offset : Z) (read : option bool)
    : gmap string value :=
  let params : gmap string value :=
    <[ "offset" := VInt offset ]> {[ "limit" := VInt limit ]} in
  match read with
  | Some b => <[ "read" := VBool b ]> params
  | None => params
  end.

Definition list (urljoin : string -> string -> string) (env : transport)
    (client : BaseClient) (limit offset : Z) (read : option bool) :=
  request urljoin env "GET" "/api/trpc/notifications.list"
          None (Some (list_params limit offset read)) None client.

End NotificationsAPI.

Module LivestockAPI.

Definition get (urljoin : string -> string -> string) (env : transport)
    (client : BaseClient) (animal_id : Z) :=
  request urljoin env "GET" "/api/trpc/livestock.get"
          None (Some {[ "id" := VInt animal_id ]}) None client.

Definition create (urljoin : string -> string -> string) (env : transport)
    (client : BaseClient) (data : gmap string value) :=
  request urljoin env "POST" "/api/trpc/livestock.create"
          (Some data) None None client.

Definition get_health_records (urljoin : string -> string -> string)
    (env : transport) (client : BaseClient) (animal_id : Z) :=
  request urljoin env "GET" "/api/trpc/livestock.getHealthRecords"
          None (Some {[ "animalId" := VInt animal_id ]}) None client.

Definition add_health_record (urljoin : string -> string -> string)
    (env : transport) (client : BaseClient) (data : gmap string value) :=
  request urljoin env "POST" "/api/trpc/livestock.addHealthRecord"
          (Some data) None None client.

Definition list_params (farm_id : Z) (animal_type : option string)
    : gmap string value :=
  let params : gmap string value := {[ "farmId" := VInt farm_id ]} in
  match animal_type with
  | Some s => if str_truthy s then <[ "type" := VStr s ]> params else params
  | None => params
  end.

Definition list (urljoin : string -> string -> string) (env : transport)
    (client : BaseClient) (farm_id : Z) (animal_type : option string) :=
  request urljoin env "GET" "/api/trpc/livestock.list"
          None (Some (list_params farm_id animal_type)) None client.

End LivestockAPI.

Module BreedingAPI.

Definition get_records (urljoin : string -> string -> string)
    (env : transport) (client : BaseClient) (farm_id : Z) :=
  request urljoin env "GET" "/api/trpc/breeding.getRecords"
          None (Some {[ "farmId" := VInt farm_id ]}) None client.

Definition get_analytics (urljoin : string -> string -> string)
    (env : transport) (client : BaseClient) (farm_id : Z) :=
  request urljoin env "GET" "/api/trpc/breeding.getAnalytics"
          None (Some {[ "farmId" := VInt farm_id ]}) None client.

Definition calculate_compatibility (urljoin : string -> string -> string)
    (env : transport) (client : BaseClient) (animal1_id animal2_id : Z) :=
  request urljoin env "GET" "/api/trpc/breeding.calculateCompatibility"
          None
          (Some (<[ "animal2Id" := VInt animal2_id ]>
                   {[ "animal1Id" := VInt animal1_id ]}))
          None client.

Definition get_recommendations (urljoin : string -> string -> string)
    (env : transport) (client : BaseClient) (farm_id : Z) :=
  request urljoin env "GET" "/api/trpc/breeding.getRecommendations"
          None (Some {[ "farmId" := VInt farm_id ]}) None client.

End BreedingAPI.

Module WeatherAPI.

(** [days] defaults to 7. *)
Definition get_forecast (urljoin : string -> string -> string)
    (env : transport) (client : BaseClient) (farm_id days : Z) :=
  request urljoin env "GET" "/api/trpc/weather.forecast"
          None
          (Some (<[ "days" := VInt days ]> {[ "farmId" := VInt farm_id ]}))
          None client.

Definition get_alerts (urljoin : string -> string -> string)
    (env : transport) (client : BaseClient) (farm_id : Z) :=
  request urljoin env "GET" "/api/trpc/weather.getAlerts"
          None (Some {[ "farmId" := VInt farm_id ]}) None client.

Definition get_crop_recommendations (urljoin : string -> string -> string)
    (env : transport) (client : BaseClient) (farm_id : Z) :=
  request urljoin env "GET" "/api/trpc/weather.getCropRecommendations"
          None (Some {[ "farmId" := VInt farm_id ]}) None client.

End WeatherAPI.

Module FinancialAPI.

Definition get_expenses_params (farm_id : Z)
    (start_date end_date : option string) : gmap string value :=
  let params : gmap string value := {[ "farmId" := VInt farm_id ]} in
  let params :=
    match start_date with
    | Some s => if str_truthy s then <[ "startDate" := VStr s ]> params else params
    | None => params
    end in
  let params :=
    match end_date with
    | Some s => if str_truthy s then <[ "endDate" := VStr s ]> params else params
    | None => params
    end in
  params.

Definition get_expenses (urljoin : string -> string -> string)
    (env : transport) (client : BaseClient) (farm_id : Z)
    (start_date end_date : option string) :=
  request urljoin env "GET" "/api/trpc/financial.getExpenses"
          None (Some (get_expenses_params farm_id start_date end_date))
          None client.

Definition get_revenue_params (farm_id : Z)
    (start_date end_date : option string) : gmap string value :=
  let params : gmap string value := {[ "farmId" := VInt farm_id ]} in
  let params :=
    match start_date with
    | Some s => if str_truthy s then <[ "startDate" := VStr s ]> params else params
    | None => params
    end in
  let params :=
    match end_date with
    | Some s => if str_truthy s then <[ "endDate" := VStr s ]> params else params
    | None => params
    end in
  params.

Definition get_revenue (urljoin : string -> string -> string)
    (env : transport) (client : BaseClient) (farm_id : Z)
    (start_date end_date : option string) :=
  request urljoin env "GET" "/api/trpc/financial.getRevenue"
          None (Some (get_revenue_params farm_id start_date end_date))
          None client.

(** [months] defaults to 12. *)
Definition get_summary (urljoin : string -> string -> string)
    (env : transport) (client : BaseClient) (farm_id months : Z) :=
  request urljoin env "GET" "/api/trpc/financial.getSummary"
          None
          (Some (<[ "months" := VInt months ]> {[ "farmId" := VInt farm_id ]}))
          None client.

Definition add_expense (urljoin : string -> string -> string)
    (env : transport) (client : BaseClient) (data : gmap string value) :=
  request urljoin env "POST" "/api/trpc/financial.addExpense"
          (Some data) None None client.

Definition add_revenue (urljoin : string -> string -> string)
    (env : transport) (client : BaseClient) (data : gmap string value) :=
  request urljoin env "POST" "/api/trpc/financial.addRevenue"
          (Some data) None None client.

End FinancialAPI.

(** One constructor per facade method of [FarmKonnectClient], with the
    method's arguments: [client.farms.list(limit, offset)] is
    [farms_list limit offset], and so on. *)
Inductive operation : Type :=
  | farms_list (limit offset : Z)
  | farms_get (farm_id : Z)
  | farms_create (data : gmap string value)
  | farms_update (farm_id : Z) (data : gmap string value)
  | farms_delete (farm_id : Z)
  | crops_list (farm_id : Z) (status : option string)
  | crops_get (crop_id : Z)
  | crops_create (data : gmap string value)
  | crops_get_analytics (crop_id : Z)
  | crops_get_soil_tests (crop_id : Z)
  | crops_get_yield_records (crop_id : Z)
  | livestock_list (farm_id : Z) (animal_type : option string)
  | livestock_get (animal_id : Z)
  | livestock_create (data : gmap string value)
  | livestock_get_health_records (animal_id : Z)
  | livestock_add_health_record (data : gmap string value)
  | breeding_get_records (farm_id : Z)
  | breeding_get_analytics (farm_id : Z)
  | breeding_calculate_compatibility (animal1_id animal2_id : Z)
  | breeding_get_recommendations (farm_id : Z)
  | marketplace_list_products (search category : option string)
                              (min_price max_price : option Q)
  | marketplace_get_product (product_id : Z)
  | marketplace_create_order (data : gmap string value)
  | marketplace_get_orders
  | marketplace_get_cart
  | marketplace_add_to_cart (product_id quantity : Z)
  | marketplace_remove_from_cart (product_id : Z)
  | weather_get_forecast (farm_id days : Z)
  | weather_get_alerts (farm_id : Z)
  | weather_get_crop_recommendations (farm_id : Z)
  | financial_get_expenses (farm_id : Z) (start_date end_date : option string)
  | financial_get_revenue (farm_id : Z) (start_date end_date : option string)
  | financial_get_summary (farm_id months : Z)
  | financial_add_expense (data : gmap string value)
  | financial_add_revenue (data : gmap string value)
  | notifications_list (limit offset : Z) (read : option bool)
  | notifications_mark_as_read (notification_id : Z)
  | notifications_mark_all_as_read
  | notifications_delete (notification_id : Z)
  | notifications_get_preferences
  | notifications_update_preferences (data : gmap string value).

(** Calling the facade method on [client]. *)
Definition call (urljoin : string -> string -> string) (env : transport)
    (client : BaseClient) (op : operation) : outcome * list event :=
  match op with
  | farms_list l o => FarmsAPI.list urljoin env client l o
  | farms_get i => FarmsAPI.get urljoin env client i
  | farms_create d => FarmsAPI.create urljoin env client d
  | farms_update i d => FarmsAPI.update urljoin env client i d
  | farms_delete i => FarmsAPI.delete urljoin env client i
  | crops_list f s => CropsAPI.list urljoin env client f s
  | crops_get i => CropsAPI.get urljoin env client i
  | crops_create d => CropsAPI.create urljoin env client d
  | crops_get_analytics i => CropsAPI.get_analytics urljoin env client i
  | crops_get_soil_tests i => CropsAPI.get_soil_tests urljoin env client i
  | crops_get_yield_records i => CropsAPI.get_yield_records urljoin env client i
  | livestock_list f t => LivestockAPI.list urljoin env client f t
  | livestock_get i => LivestockAPI.get urljoin env client i
  | livestock_create d => LivestockAPI.create urljoin env client d
  | livestock_get_health_records i =>
      LivestockAPI.get_health_records urljoin env client i
  | livestock_add_health_record d =>
      LivestockAPI.add_health_record urljoin env client d
  | breeding_get_records f => BreedingAPI.get_records urljoin env client f
  | breeding_get_analytics f => BreedingAPI.get_analytics urljoin env client f
  | breeding_calculate_compatibility a b =>
      BreedingAPI.calculate_compatibility urljoin env client a b
  | breeding_get_recommendations f =>
      BreedingAPI.get_recommendations urljoin env client f
  | marketplace_list_products s c lo hi =>
      MarketplaceAPI.list_products urljoin env client s c lo hi
  | marketplace_get_product i => MarketplaceAPI.get_product urljoin env client i
  | marketplace_create_order d =>
      MarketplaceAPI.create_order urljoin env client d
  | marketplace_get_orders => MarketplaceAPI.get_orders urljoin env client
  | marketplace_get_cart => MarketplaceAPI.get_cart urljoin env client
  | marketplace_add_to_cart i q =>
      MarketplaceAPI.add_to_cart urljoin env client i q
  | marketplace_remove_from_cart i =>
      MarketplaceAPI.remove_from_cart urljoin env client i
  | weather_get_forecast f d => WeatherAPI.get_forecast urljoin env client f d
  | weather_get_alerts f => WeatherAPI.get_alerts urljoin env client f
  | weather_get_crop_recommendations f =>
      WeatherAPI.get_crop_recommendations urljoin env client f
  | financial_get_expenses f s e =>
      FinancialAPI.get_expenses urljoin env client f s e
  | financial_get_revenue f s e =>
      FinancialAPI.get_revenue urljoin env client f s e
  | financial_get_summary f m => FinancialAPI.get_summary urljoin env client f m
  | financial_add_expense d => FinancialAPI.add_expense urljoin env client d
  | financial_add_revenue d => FinancialAPI.add_revenue urljoin env client d
  | notifications_list l o r => NotificationsAPI.list urljoin env client l o r
  | notifications_mark_as_read i =>
      NotificationsAPI.mark_as_read urljoin env client i
  | notifications_mark_all_as_read =>
      NotificationsAPI.mark_all_as_read urljoin env client
  | notifications_delete i => NotificationsAPI.delete urljoin env client i
  | notifications_get_preferences =>
      NotificationsAPI.get_preferences urljoin env client
  | notifications_update_preferences d =>
      NotificationsAPI.update_preferences urljoin env client d
  end.


(** ** The retry policy, once *)

(** The loop both engines run, over the body of the [try] block.  The
    two loops above are instances of it ([request_loop_policy],
    [async_request_loop_policy]); the properties of the retry policy are
    proved here once. *)
Fixpoint policy_loop (try_body : exchange -> result value)
    (env : transport) (req : Request) (self : BaseClient)
    (fuel attempt : nat) : outcome * list event :=
  match fuel with
  | O => (Returns VNone, [])
  | S fuel' =>
      match try_body (env attempt req) with
      | Ok body => (Returns body, [Attempt req])
      | Raise x =>
          match caught x with
          | Some e =>
              if Z.of_nat attempt <? retry_attempts self - 1 then
                match backoff_sleep self attempt with
                | Slept d =>
                    let '(o, tr) :=
                      policy_loop try_body env req self fuel' (S attempt) in
                    (o, Attempt req :: Sleep d :: tr)
                | SleepOverflow => (Raises ExcOverflowError, [Attempt req])
                | SleepForever => (Hangs, [Attempt req])
                end
              else
                (Raises (ExcAPIError (APIError_init (VStr (descr e)) 0 None)),
                 [Attempt req])
          | None => (Raises x, [Attempt req])
          end
      end
  end.

(** A transport-level failure: the library raised an exception of the
    class the engine catches. *)
Definition transport_failure (x : exchange) : option lib_exn :=
  match x with
  | Fails e => if transport_error e then Some e else None
  | Responds _ => None
  end.

(** A completed exchange with a success status whose body parses. *)
Definition success (x : exchange) : option value :=
  match x with
  | Responds r => if ok r then match json r with Ok v => Some v | Raise _ => None end
                  else None
  | Fails _ => None
  end.

(** The [APIError] a run ends with, if it ends with one. *)
Definition raised_error (o : outcome) : option APIError :=
  match o with
  | Raises (ExcAPIError e) => Some e
  | _ => None
  end.

(** ** Concrete exchanges *)

(** [urljoin] on a base URL without a path and a path that starts with
    a slash. *)
Definition concat_url (base path : string) : string := base +:+ path.

Definition dquote : string := String (Ascii.ascii_of_nat 34) EmptyString.

(** A gateway's HTML error page: the status is 502, the body is not
    JSON, and [response.json()] raises [e]. *)
Definition html_error_page (e : lib_exn) : Response :=
  {| ok := false;
     resp_status := 502;
     text := "<html>Bad Gateway</html>";
     content_type := "text/html";
     json := Raise (ExcLib e) |}.

(** The text of the JSON object with the single member [key: "val"]. *)
Definition json_text (key val : string) : string :=
  "{" +:+ dquote +:+ key +:+ dquote +:+ ": "
      +:+ dquote +:+ val +:+ dquote +:+ "}".

(** A 404 whose JSON body is served as [application/problem+json], as
    [requests] presents it: its [json()] parses the body whatever the
    content type. *)
Definition problem_json : Response :=
  {| ok := false;
     resp_status := 404;
     text := json_text "message" "Farm not found";
     content_type := "application/problem+json";
     json := Ok (VDict {[ "message" := VStr "Farm not found" ]}) |}.

(** The same 404 served as [application/json]. *)
Definition not_found_json : Response :=
  {| ok := false;
     resp_status := 404;
     text := json_text "message" "Farm not found";
     content_type := "application/json";
     json := Ok (VDict {[ "message" := VStr "Farm not found" ]}) |}.

(** A 200 with a JSON object. *)
Definition farm_json : Response :=
  {| ok := true;
     resp_status := 200;
     text := json_text "name" "Green Acres";
     content_type := "application/json";
     json := Ok (VDict {[ "name" := VStr "Green Acres" ]}) |}.

Definition connection_refused : lib_exn :=
  {| transport_error := true; descr := "Connection refused" |}.

(** [aiohttp.ContentTypeError], raised by [response.json()] of
    [aiohttp] when the content type is not [application/json]: an
    [aiohttp.ClientError]. *)
Definition content_type_error : lib_exn :=
  {| transport_error := true;
     descr := "Attempt to decode JSON with unexpected mimetype" |}.

(** The response [problem_json] as [aiohttp] presents it: its [json()]
    refuses the content type. *)
Definition problem_json_aiohttp : Response :=
  {| ok := false;
     resp_status := 404;
     text := json_text "message" "Farm not found";
     content_type := "application/problem+json";
     json := Raise (ExcLib content_type_error) |}.

(** A transport that always answers with [r]. *)
Definition always (r : Response) : transport := fun _ _ => Responds r.

(** A transport that refuses the first [f] connections and then
    answers with [r]. *)
Definition refuse_then (f : nat) (r : Response) : transport :=
  fun i _ => if (i <? f)%nat then Fails connection_refused else Responds r.

(** A client with an attempt budget of [n], otherwise the defaults. *)
Definition client_with_budget (n : Z) : BaseClient :=
  {| base_url := "http://localhost:3001";
     token := None;
     timeout := 30;
     retry_attempts := n;
     retry_delay := 1 |}.

(** [asyncio.TimeoutError], which [aiohttp] raises when the total
    timeout of a request expires: no [aiohttp.ClientError]. *)
Definition timeout_error : lib_exn :=
  {| transport_error := false; descr := "TimeoutError" |}.

(** [requests.Timeout], raised by [requests] when its timeout expires:
    a [requests.RequestException]. *)
Definition requests_timeout : lib_exn :=
  {| transport_error := true; descr := "Read timed out." |}.

(** A session object made before the client needed one. *)
Definition a_session : ClientSession := Session 0.

(** The session object a call of [aiohttp.ClientSession()] returns. *)
Definition fresh_session : ClientSession := Session 1.

(** A decode failure of the caught class. *)
Definition decode_error : lib_exn :=
  {| transport_error := true; descr := "Expecting value" |}.

(** A transport on which every call raises [e]. *)
Definition raising (e : lib_exn) : transport := fun _ _ => Fails e.


(** A 204 without a body, on which [response.json()] raises [e]: a
    [requests.exceptions.JSONDecodeError] or a plain [ValueError] on
    the blocking side, an [aiohttp.ContentTypeError] on the
    non-blocking one. *)
Definition empty_success (e : lib_exn) : Response :=
  {| ok := true;
     resp_status := 204;
     text := "";
     content_type := "application/octet-stream";
     json := Raise (ExcLib e) |}.

(** A 204 without a body, on which [response.json()] raises
    [decode_error]. *)
Definition no_content : Response :=
  {| ok := true;
     resp_status := 204;
     text := "";
     content_type := "application/octet-stream";
     json := Raise (ExcLib decode_error) |}.

(** [farms.get(7)] through a gateway that answers every call with its
    HTML error page. *)
Definition farms_get_behind_gateway (e : lib_exn) : outcome * list event :=
  FarmsAPI.get concat_url (always (html_error_page e)) BaseClient_default 7.

(** * Properties *)

(** ** Dictionaries and truthiness *)

Lemma dict_truthy_empty : dict_truthy ∅ = false.
Proof. unfold dict_truthy. rewrite bool_decide_eq_true_2; done. Qed.

Lemma APIError_init_details_id (m : value) (s : Z) (d : gmap string value) :
  APIError_init m s (Some d) = mkAPIError m s d.
Proof.
  unfold APIError_init, dict_truthy. f_equal.
  case_bool_decide; simpl; congruence.
Qed.

Lemma str_truthy_empty : str_truthy "" = false.
Proof. reflexivity. Qed.

Lemma str_truthy_true (s : string) : s ≠ "" -> str_truthy s = true.
Proof.
  intros Hs. unfold str_truthy.
  destruct (String.eqb_spec s ""); [contradiction | reflexivity].
Qed.

(** ** The two loops are the policy loop *)

Section Instances.

Variable urljoin : string -> string -> string.
Variable env : transport.
Variables (method path : string).
Variables (data params : option (gmap string value)).
Variable headers : option (gmap string string).
Variable self : BaseClient.

Let req := build_request urljoin method path data params headers self.

Lemma request_loop_policy (fuel attempt : nat) :
  request_loop urljoin env method path data params headers self fuel attempt
  = policy_loop sync_try env req self fuel attempt.
Proof.
  revert attempt. induction fuel as [|fuel IH]; intros attempt; simpl.
  - reflexivity.
  - fold req. destruct (sync_try (env attempt req)) as [body|x]; [reflexivity|].
    destruct (caught x) as [e|]; [|reflexivity].
    rewrite IH. reflexivity.
Qed.

Lemma async_request_loop_policy (fuel attempt : nat) :
  async_request_loop urljoin env method path data params headers self fuel attempt
  = policy_loop async_try env req self fuel attempt.
Proof.
  revert attempt. induction fuel as [|fuel IH]; intros attempt; simpl.
  - reflexivity.
  - fold req. destruct (async_try (env attempt req)) as [body|x]; [reflexivity|].
    destruct (caught x) as [e|]; [|reflexivity].
    rewrite IH. reflexivity.
Qed.

End Instances.

(** ** What an observer reads off a backoff trace *)

Section BackoffTrace.

Variable self : BaseClient.
Variable req : Request.

Lemma backoff_trace_step (i m : nat) :
  backoff_trace self req i (S (S m))
  = Attempt req :: Sleep (backoff self i) :: backoff_trace self req (S i) (S m).
Proof. reflexivity. Qed.

Lemma attempts_backoff_trace (m i : nat) :
  attempts (backoff_trace self req i m) = m.
Proof.
  revert i. induction m as [|[|m] IH]; intros i.
  - reflexivity.
  - reflexivity.
  - rewrite backoff_trace_step. cbn [attempts]. rewrite IH. reflexivity.
Qed.

Lemma delays_backoff_trace (m i : nat) :
  delays (backoff_trace self req i (S m)) = map (backoff self) (seq i m).
Proof.
  revert i. induction m as [|m IH]; intros i.
  - reflexivity.
  - rewrite backoff_trace_step. cbn [delays seq map]. rewrite IH. reflexivity.
Qed.

Lemma delays_before_from_backoff_trace (k : nat) :
  forall (acc : list Q) (i m : nat),
    (k < m)%nat ->
    delays_before_from acc (S k) (backoff_trace self req i m)
    = Some (match k with
            | O => acc
            | S k' => [backoff self (i + k')]
            end).
Proof.
  induction k as [|k IH]; intros acc i m Hkm.
  - destruct m as [|[|m]]; [lia | reflexivity | reflexivity].
  - destruct m as [|[|m]]; [lia | lia |].
    rewrite backoff_trace_step. cbn [delays_before_from].
    rewrite IH by lia. destruct k as [|k].
    + rewrite Nat.add_0_r. reflexivity.
    + do 3 f_equal. lia.
Qed.

(** Before transport call [k >= 2] lies the single delay
    [backoff (k - 2)]. *)
Lemma delays_before_backoff_trace (k m : nat) :
  (2 <= k <= m)%nat ->
  delays_before k (backoff_trace self req 0 m) = Some [backoff self (k - 2)].
Proof.
  intros [Hk Hm]. unfold delays_before.
  destruct k as [|[|k]]; [lia | lia |].
  rewrite delays_before_from_backoff_trace by lia.
  do 3 f_equal. lia.
Qed.

End BackoffTrace.

(** ** The backoff sleeps *)

Lemma backoff_sleep_Slept (self : BaseClient) (attempt : nat) (d : Q) :
  backoff_sleep self attempt = Slept d -> d = backoff self attempt.
Proof.
  unfold backoff_sleep. destruct (1024 <=? attempt)%nat; [discriminate|].
  destruct (Qle_bool float_limit (backoff self attempt)); [discriminate|].
  intros [= <-]. reflexivity.
Qed.

Lemma sleeps_return_Slept (self : BaseClient) (k j : nat) :
  sleeps_return self k ->
  (j < k)%nat ->
  backoff_sleep self j = Slept (backoff self j).
Proof.
  intros [Hk Hlt] Hj. unfold backoff_sleep.
  replace (1024 <=? j)%nat with false
    by (symmetry; apply Nat.leb_gt; lia).
  destruct (Qle_bool float_limit (backoff self j)) eqn:Hle; [|reflexivity].
  apply Qle_bool_iff in Hle. exfalso.
  apply (Qlt_not_le _ _ (Hlt j Hj)), Hle.
Qed.

Lemma sleeps_return_le (self : BaseClient) (k k' : nat) :
  (k' <= k)%nat -> sleeps_return self k -> sleeps_return self k'.
Proof.
  intros Hle [Hk Hlt]. split; [lia|]. intros j Hj. apply Hlt. lia.
Qed.

Lemma sleeps_return_0 (self : BaseClient) : sleeps_return self 0.
Proof. split; [lia|]. intros j Hj. lia. Qed.

(** ** Reading a backoff trace *)

Section BackoffTraceFacts.

Variable self : BaseClient.
Variable req : Request.

Lemma backoff_trace_requests (m i : nat) (r : Request) :
  In (Attempt r) (backoff_trace self req i m) -> r = req.
Proof.
  revert i. induction m as [|[|m] IH]; intros i.
  - intros [].
  - intros [[= <-] | []]. reflexivity.
  - rewrite backoff_trace_step.
    intros [[= <-] | [Hs | Hin]]; [reflexivity | discriminate Hs |].
    apply (IH (S i) Hin).
Qed.

Lemma length_delays_backoff_trace (m i : nat) :
  length (delays (backoff_trace self req i m)) = (m - 1)%nat.
Proof.
  destruct m as [|m]; [reflexivity|].
  rewrite delays_backoff_trace, length_map, length_seq. lia.
Qed.



End BackoffTraceFacts.

(** * Every run of the retry loop *)

(** ** The anatomy of a run *)

Section Anatomy.

Variable try_body : exchange -> result value.
Variable env : transport.
Variable req : Request.
Variable self : BaseClient.

(** A run that starts with budget left makes [m >= 1] transport calls:
    the first [m - 1] end in a caught exception, each followed by the
    backoff sleep, which returns; the last one decides the outcome.
    When it ends in a caught exception too, either the budget is used
    up, or the backoff sleep does not return. *)
Lemma policy_loop_anatomy (fuel : nat) :
  forall attempt : nat,
    Z.of_nat (S fuel + attempt) = retry_attempts self ->
    exists m : nat,
      (1 <= m <= S fuel)%nat
      /\ snd (policy_loop try_body env req self (S fuel) attempt)
         = backoff_trace self req attempt m
      /\ (forall j, (j < m - 1)%nat ->
            (exists x e, try_body (env (attempt + j)%nat req) = Raise x
                         /\ caught x = Some e)
            /\ backoff_sleep self (attempt + j)
               = Slept (backoff self (attempt + j)))
      /\ match try_body (env (attempt + (m - 1))%nat req) with
         | Ok v =>
             fst (policy_loop try_body env req self (S fuel) attempt)
             = Returns v
         | Raise x =>
             match caught x with
             | None =>
                 fst (policy_loop try_body env req self (S fuel) attempt)
                 = Raises x
             | Some e =>
                 if (m <? S fuel)%nat then
                   match backoff_sleep self (attempt + (m - 1)) with
                   | Slept _ => False
                   | SleepOverflow =>
                       fst (policy_loop try_body env req self (S fuel) attempt)
                       = Raises ExcOverflowError
                   | SleepForever =>
                       fst (policy_loop try_body env req self (S fuel) attempt)
                       = Hangs
                   end
                 else
                   fst (policy_loop try_body env req self (S fuel) attempt)
                   = Raises (ExcAPIError (mkAPIError (VStr (descr e)) 0 ∅))
             end
         end.
Proof.
  induction fuel as [|fuel IH]; intros attempt Hn.
  - exists 1%nat. cbn [policy_loop Nat.sub]. rewrite Nat.add_0_r.
    split; [lia|].
    destruct (try_body (env attempt req)) as [v|x] eqn:Htry.
    + cbn. repeat split; intros; lia.
    + destruct (caught x) as [e|] eqn:Hc.
      * replace (Z.of_nat attempt <? retry_attempts self - 1) with false
          by (symmetry; apply Z.ltb_ge; lia).
        cbn. repeat split; intros; lia.
      * cbn. repeat split; intros; lia.
  - remember (S fuel) as fuel1 eqn:Hfuel1.
    cbn [policy_loop].
    destruct (try_body (env attempt req)) as [v|x] eqn:Htry.
    + exists 1%nat. cbn [Nat.sub]. rewrite Nat.add_0_r, Htry. cbn.
      repeat split; intros; lia.
    + destruct (caught x) as [e|] eqn:Hc.
      * replace (Z.of_nat attempt <? retry_attempts self - 1) with true
          by (symmetry; apply Z.ltb_lt; lia).
        destruct (backoff_sleep self attempt) as [d| |] eqn:Hsleep.
        -- pose proof (backoff_sleep_Slept _ _ _ Hsleep) as ->.
           subst fuel1.
           destruct (IH (S attempt) ltac:(lia))
             as (m & Hm & Htr & Hfail & Hlast).
           destruct (policy_loop try_body env req self (S fuel) (S attempt))
             as [o tr] eqn:Hloop.
           cbn [fst snd] in *. exists (S m).
           split; [lia|]. split.
           { destruct m as [|m]; [lia|]. rewrite backoff_trace_step, Htr.
             reflexivity. }
           split.
           { intros j Hj. destruct j as [|j].
             - rewrite Nat.add_0_r. eauto.
             - replace (attempt + S j)%nat with (S attempt + j)%nat by lia.
               apply Hfail. lia. }
           replace (attempt + (S m - 1))%nat
             with (S attempt + (m - 1))%nat by lia.
           destruct (try_body (env (S attempt + (m - 1))%nat req))
             as [v'|x']; [exact Hlast|].
           destruct (caught x') as [e'|]; [|exact Hlast].
           change (S m <? S (S fuel))%nat with (m <? S fuel)%nat.
           exact Hlast.
        -- exists 1%nat. cbn [Nat.sub]. rewrite Nat.add_0_r, Htry, Hc.
           subst fuel1. cbn [Nat.ltb Nat.leb]. rewrite Hsleep. cbn.
           repeat split; intros; lia.
        -- exists 1%nat. cbn [Nat.sub]. rewrite Nat.add_0_r, Htry, Hc.
           subst fuel1. cbn [Nat.ltb Nat.leb]. rewrite Hsleep. cbn.
           repeat split; intros; lia.
      * exists 1%nat. cbn [Nat.sub]. rewrite Nat.add_0_r, Htry, Hc. cbn.
        repeat split; intros; lia.
Qed.

(** The trace of any run is a backoff trace within the budget. *)
Lemma policy_run_trace :
  exists m : nat,
    (m <= Z.to_nat (retry_attempts self))%nat
    /\ snd (policy_loop try_body env req self
              (Z.to_nat (retry_attempts self)) 0)
       = backoff_trace self req 0 m.
Proof.
  destruct (Z.to_nat (retry_attempts self)) as [|fuel] eqn:Hfuel.
  - exists 0%nat. split; [lia | reflexivity].
  - destruct (policy_loop_anatomy fuel 0 ltac:(lia)) as (m & Hm & Htr & _).
    exists m. split; [lia | exact Htr].
Qed.

End Anatomy.

(** ** Where a run stops *)

Section Stops.

Variable try_body : exchange -> result value.
Variable env : transport.
Variable req : Request.
Variable self : BaseClient.

Let run :=
  policy_loop try_body env req self (Z.to_nat (retry_attempts self)) 0.

(** The [try] block raises a caught exception on call [i]. *)
Let retried (i : nat) : Prop :=
  exists x e, try_body (env i req) = Raise x /\ caught x = Some e.

Lemma run_no_budget : retry_attempts self <= 0 -> run = (Returns VNone, []).
Proof.
  intros Hn. unfold run.
  replace (Z.to_nat (retry_attempts self)) with O by lia. reflexivity.
Qed.

(** After [f] retried calls whose backoff sleeps return, with budget
    left, a call that returns or raises something the [except] clause
    does not catch ends the run. *)
Lemma policy_stops_at (f : nat) :
  (f < Z.to_nat (retry_attempts self))%nat ->
  (forall i, (i < f)%nat -> retried i) ->
  sleeps_return self f ->
  match try_body (env f req) with
  | Ok _ => True
  | Raise x => caught x = None
  end ->
  run = (match try_body (env f req) with
         | Ok v => Returns v
         | Raise x => Raises x
         end,
         backoff_trace self req 0 (S f)).
Proof.
  intros Hf Hretried Hsleeps Hstop. unfold run.
  destruct (Z.to_nat (retry_attempts self)) as [|fuel] eqn:Hfuel; [lia|].
  destruct (policy_loop_anatomy try_body env req self fuel 0 ltac:(lia))
    as (m & Hm & Htr & Hfail & Hlast).
  cbn [Nat.add] in Hfail, Hlast.
  assert (Hmf : m = S f).
  { destruct (lt_eq_lt_dec (m - 1) f) as [[Hlt | Heq] | Hgt].
    - destruct (Hretried (m - 1)%nat Hlt) as (x & e & Hx & Hc).
      rewrite Hx, Hc in Hlast.
      replace (m <? S fuel)%nat with true in Hlast
        by (symmetry; apply Nat.ltb_lt; lia).
      rewrite (sleeps_return_Slept self f (m - 1) Hsleeps Hlt) in Hlast.
      contradiction.
    - lia.
    - destruct (Hfail f Hgt) as [(x & e & Hx & Hc) _].
      rewrite Hx in Hstop. congruence. }
  subst m. replace (S f - 1)%nat with f in Hlast by lia.
  destruct (policy_loop try_body env req self (S fuel) 0) as [o tr].
  cbn [fst snd] in *. subst tr. f_equal.
  destruct (try_body (env f req)) as [v|x]; [exact Hlast|].
  rewrite Hstop in Hlast. exact Hlast.
Qed.

(** When every call the budget allows is retried and the backoff
    sleeps return, the run ends with the status-0 [APIError] that
    describes the last exception. *)
Lemma policy_exhausts (e : nat -> lib_exn) :
  1 <= retry_attempts self ->
  (forall i, Z.of_nat i < retry_attempts self ->
             exists x, try_body (env i req) = Raise x
                       /\ caught x = Some (e i)) ->
  sleeps_return self (Z.to_nat (retry_attempts self) - 1) ->
  run = (Raises (ExcAPIError
                   (mkAPIError
                      (VStr (descr (e (Z.to_nat (retry_attempts self - 1)))))
                      0 ∅)),
         backoff_trace self req 0 (Z.to_nat (retry_attempts self))).
Proof.
  intros Hn Hall Hsleeps. unfold run.
  destruct (Z.to_nat (retry_attempts self)) as [|fuel] eqn:Hfuel; [lia|].
  destruct (policy_loop_anatomy try_body env req self fuel 0 ltac:(lia))
    as (m & Hm & Htr & Hfail & Hlast).
  cbn [Nat.add] in Hfail, Hlast.
  destruct (Hall (m - 1)%nat ltac:(lia)) as (x & Hx & Hc).
  rewrite Hx, Hc in Hlast.
  destruct (m <? S fuel)%nat eqn:Hlt.
  - apply Nat.ltb_lt in Hlt.
    rewrite (sleeps_return_Slept self (S fuel - 1) (m - 1) Hsleeps) in Hlast
      by lia.
    contradiction.
  - apply Nat.ltb_ge in Hlt. assert (m = S fuel) as -> by lia.
    destruct (policy_loop try_body env req self (S fuel) 0) as [o tr].
    cbn [fst snd] in *. subst o tr.
    replace (Z.to_nat (retry_attempts self - 1)) with (S fuel - 1)%nat by lia.
    reflexivity.
Qed.

(** When the backoff sleep after retried call [f + 1] does not return
    although budget is left, the run ends there: with [OverflowError]
    when the power of two does not convert to a float, or asleep for
    ever when the product is infinite. *)
Lemma policy_stuck_at (f : nat) :
  (S f < Z.to_nat (retry_attempts self))%nat ->
  (forall i, (i <= f)%nat -> retried i) ->
  sleeps_return self f ->
  backoff_sleep self f <> Slept (backoff self f) ->
  run = (match backoff_sleep self f with
         | SleepForever => Hangs
         | _ => Raises ExcOverflowError
         end,
         backoff_trace self req 0 (S f)).
Proof.
  intros Hf Hretried Hsleeps Hstuck. unfold run.
  destruct (Z.to_nat (retry_attempts self)) as [|fuel] eqn:Hfuel; [lia|].
  destruct (policy_loop_anatomy try_body env req self fuel 0 ltac:(lia))
    as (m & Hm & Htr & Hfail & Hlast).
  cbn [Nat.add] in Hfail, Hlast.
  assert (Hmf : m = S f).
  { destruct (lt_eq_lt_dec (m - 1) f) as [[Hlt | Heq] | Hgt].
    - destruct (Hretried (m - 1)%nat ltac:(lia)) as (x & e & Hx & Hc).
      rewrite Hx, Hc in Hlast.
      replace (m <? S fuel)%nat with true in Hlast
        by (symmetry; apply Nat.ltb_lt; lia).
      rewrite (sleeps_return_Slept self f (m - 1) Hsleeps Hlt) in Hlast.
      contradiction.
    - lia.
    - destruct (Hfail f Hgt) as [_ Hs]. contradiction. }
  subst m. replace (S f - 1)%nat with f in Hlast by lia.
  destruct (Hretried f ltac:(lia)) as (x & e & Hx & Hc).
  rewrite Hx, Hc in Hlast.
  replace (S f <? S fuel)%nat with true in Hlast
    by (symmetry; apply Nat.ltb_lt; lia).
  destruct (policy_loop try_body env req self (S fuel) 0) as [o tr].
  cbn [fst snd] in *. subst tr. f_equal.
  destruct (backoff_sleep self f) as [d| |] eqn:Hsleep;
    [contradiction | exact Hlast | exact Hlast].
Qed.

End Stops.

(** ** The two [try] blocks *)

(** Both [try] blocks let a library exception out unchanged and return
    the parsed body of a successful response. *)

Lemma sync_try_failure (x : exchange) (e : lib_exn) :
  transport_failure x = Some e -> sync_try x = Raise (ExcLib e).
Proof.
  destruct x as [e'|r]; simpl; [|discriminate].
  destruct (transport_error e'); [|discriminate]. congruence.
Qed.

Lemma sync_try_success (x : exchange) (v : value) :
  success x = Some v -> sync_try x = Ok v.
Proof.
  destruct x as [e'|r]; simpl; [discriminate|].
  destruct (ok r); simpl; [|discriminate].
  destruct (json r); [|discriminate]. congruence.
Qed.

Lemma async_try_failure (x : exchange) (e : lib_exn) :
  transport_failure x = Some e -> async_try x = Raise (ExcLib e).
Proof.
  destruct x as [e'|r]; simpl; [|discriminate].
  destruct (transport_error e'); [|discriminate]. congruence.
Qed.

Lemma async_try_success (x : exchange) (v : value) :
  success x = Some v -> async_try x = Ok v.
Proof.
  destruct x as [e'|r]; simpl; [discriminate|].
  destruct (ok r); simpl; [|discriminate].
  destruct (json r); [|discriminate]. congruence.
Qed.

Lemma transport_failure_Fails (e : lib_exn) :
  transport_error e = true -> transport_failure (Fails e) = Some e.
Proof. intros He. simpl. rewrite He. reflexivity. Qed.

Lemma success_Responds (r : Response) (v : value) :
  ok r = true -> json r = Ok v -> success (Responds r) = Some v.
Proof. intros Hok Hj. simpl. rewrite Hok, Hj. reflexivity. Qed.

(** The policy reads the client through [retry_attempts] and
    [retry_delay] only. *)
Lemma policy_loop_client (try_body : exchange -> result value)
    (env : transport) (req : Request) (self1 self2 : BaseClient) :
  retry_attempts self1 = retry_attempts self2 ->
  retry_delay self1 = retry_delay self2 ->
  forall fuel attempt,
    policy_loop try_body env req self1 fuel attempt
    = policy_loop try_body env req self2 fuel attempt.
Proof.
  intros Hn Hd. induction fuel as [|fuel IH]; intros attempt; simpl.
  - reflexivity.
  - destruct (try_body (env attempt req)) as [body|x]; [reflexivity|].
    destruct (caught x); [|reflexivity].
    assert (Hsleep : backoff_sleep self1 attempt = backoff_sleep self2 attempt)
      by (unfold backoff_sleep, backoff; rewrite Hd; reflexivity).
    rewrite IH, Hn, Hsleep. reflexivity.
Qed.


Lemma transport_failure_retried (try_body : exchange -> result value)
    (x : exchange) (e : lib_exn) :
  try_body = sync_try \/ try_body = async_try ->
  transport_failure x = Some e ->
  exists y, try_body x = Raise y /\ caught y = Some e.
Proof.
  intros Htry Hx. exists (ExcLib e). split.
  - destruct Htry as [-> | ->];
      [apply sync_try_failure, Hx | apply async_try_failure, Hx].
  - destruct x as [e'|r]; cbn in Hx; [|discriminate].
    destruct (transport_error e') eqn:He; [|discriminate].
    injection Hx as <-. cbn. rewrite He. reflexivity.
Qed.

Lemma sync_try_Ok (x : exchange) (v : value) :
  sync_try x = Ok v ->
  exists r, x = Responds r /\ ok r = true /\ json r = Ok v.
Proof.
  destruct x as [e|r]; [discriminate|]. unfold sync_try.
  destruct (ok r) eqn:Hok; cbn [negb].
  - intros Hj. eauto.
  - destruct (if str_truthy (text r) then json r else Ok (VDict ∅))
      as [[]|]; discriminate.
Qed.

Lemma async_try_Ok (x : exchange) (v : value) :
  async_try x = Ok v ->
  exists r, x = Responds r /\ ok r = true /\ json r = Ok v.
Proof.
  destruct x as [e|r]; [discriminate|]. unfold async_try.
  destruct (ok r) eqn:Hok; cbn [negb].
  - intros Hj. eauto.
  - destruct (if String.eqb (content_type r) "application/json"
              then json r else Ok (VDict ∅)) as [[]|]; discriminate.
Qed.

Lemma raise_for_error_data_status (v : value) (status : Z) (err : APIError) :
  raise_for_error_data v status = Raise (ExcAPIError err) ->
  status_code err = status.
Proof.
  destruct v; try discriminate. cbn. intros [= <-]. reflexivity.
Qed.

(** An [APIError] that leaves a [try] block was built from a
    non-success response, unless [response.json()] raised it. *)
Lemma sync_try_APIError (x : exchange) (err : APIError) :
  sync_try x = Raise (ExcAPIError err) ->
  exists r, x = Responds r
            /\ ((ok r = false /\ status_code err = resp_status r)
                \/ json r = Raise (ExcAPIError err)).
Proof.
  destruct x as [e|r]; [discriminate|]. unfold sync_try.
  intros H. exists r. split; [reflexivity|].
  destruct (ok r) eqn:Hok; cbn [negb] in H; [right; exact H|].
  destruct (str_truthy (text r)).
  - destruct (json r) as [v|x] eqn:Hj; cbn in H.
    + left. split; [reflexivity|].
      apply (raise_for_error_data_status _ _ _ H).
    + right. congruence.
  - cbn in H. left. split; [reflexivity|].
    apply (raise_for_error_data_status (VDict ∅) _ _ H).
Qed.

Lemma async_try_APIError (x : exchange) (err : APIError) :
  async_try x = Raise (ExcAPIError err) ->
  exists r, x = Responds r
            /\ ((ok r = false /\ status_code err = resp_status r)
                \/ json r = Raise (ExcAPIError err)).
Proof.
  destruct x as [e|r]; [discriminate|]. unfold async_try.
  intros H. exists r. split; [reflexivity|].
  destruct (ok r) eqn:Hok; cbn [negb] in H; [right; exact H|].
  destruct (String.eqb (content_type r) "application/json").
  - destruct (json r) as [v|x] eqn:Hj; cbn in H.
    + left. split; [reflexivity|].
      apply (raise_for_error_data_status _ _ _ H).
    + right. congruence.
  - cbn in H. left. split; [reflexivity|].
    apply (raise_for_error_data_status (VDict ∅) _ _ H).
Qed.

(** ** The engines *)

Section Engines.

Variable urljoin : string -> string -> string.
Variable env : transport.
Variables (method path : string).
Variables (data params : option (gmap string value)).
Variable headers : option (gmap string string).
Variable self : BaseClient.
Variable new_session : ClientSession.

Let req := build_request urljoin method path data params headers self.
Let sync_run := request urljoin env method path data params headers self.
Let async_run (s : option ClientSession) :=
  fst (async_request urljoin env method path data params headers
         new_session (mkAsyncClient self s)).
Let budget := Z.to_nat (retry_attempts self).

Lemma request_policy :
  sync_run = policy_loop sync_try env req self
               (Z.to_nat (retry_attempts self)) 0.
Proof. apply request_loop_policy. Qed.

Lemma async_request_policy (s : option ClientSession) :
  async_run s = policy_loop async_try env req self
                  (Z.to_nat (retry_attempts self)) 0.
Proof.
  unfold async_run, async_request, ensure_session.
  destruct s; simpl; apply async_request_loop_policy.
Qed.

(** Either engine runs the policy loop over its own [try] block. *)
Lemma engine_run_policy (s : option ClientSession)
    (run : outcome * list event) :
  run = sync_run \/ run = async_run s ->
  exists try_body,
    (try_body = sync_try \/ try_body = async_try)
    /\ run = policy_loop try_body env req self budget 0.
Proof.
  intros [-> | ->].
  - exists sync_try. split; [left; reflexivity | apply request_policy].
  - exists async_try. split; [right; reflexivity | apply async_request_policy].
Qed.

Lemma engine_run_trace (s : option ClientSession)
    (run : outcome * list event) :
  run = sync_run \/ run = async_run s ->
  exists m : nat, (m <= budget)%nat /\ snd run = backoff_trace self req 0 m.
Proof.
  intros Hrun.
  destruct (engine_run_policy s run Hrun) as (try_body & _ & ->).
  apply policy_run_trace.
Qed.

(** C9: with [retry_attempts] zero or negative, [request] makes no
    transport call and returns [None], in both engines. *)
Theorem no_budget_returns_none (s : option ClientSession) :
  retry_attempts self <= 0 ->
  sync_run = (Returns VNone, []) /\ async_run s = (Returns VNone, []).
Proof.
  intros Hn. rewrite request_policy, async_request_policy.
  split; apply run_no_budget; assumption.
Qed.

(** The first [f] transport calls raise an exception of the class the
    [except] clause names. *)
Let fails_first (f : nat) : Prop :=
  forall i, (i < f)%nat ->
            exists e, env i req = Fails e /\ transport_error e = true.

Lemma fails_first_retried (try_body : exchange -> result value) (f : nat) :
  try_body = sync_try \/ try_body = async_try ->
  fails_first f ->
  forall i, (i < f)%nat ->
            exists x e, try_body (env i req) = Raise x /\ caught x = Some e.
Proof.
  intros Htry Hfail i Hi. destruct (Hfail i Hi) as (e & He & Hte).
  destruct (transport_failure_retried try_body (env i req) e Htry)
    as (y & Hy & Hc).
  - rewrite He. apply transport_failure_Fails, Hte.
  - eauto.
Qed.

(** After [f] caught failures whose backoff sleeps return, with budget
    left, what the [try] block does on call [f + 1] ends the run,
    unless it is another caught exception. *)
Lemma stops_after_failures (try_body : exchange -> result value)
    (f : nat) (o : outcome) :
  try_body = sync_try \/ try_body = async_try ->
  (f < budget)%nat ->
  fails_first f ->
  sleeps_return self f ->
  try_body (env f req)
  = match o with
    | Returns v => Ok v
    | Raises x => Raise x
    | Hangs => Raise ExcOverflowError
    end ->
  match o with
  | Returns _ => True
  | Raises x => caught x = None
  | Hangs => False
  end ->
  policy_loop try_body env req self budget 0
  = (o, backoff_trace self req 0 (S f)).
Proof.
  intros Htry Hf Hfail Hsleeps Hlast Hstop. unfold budget in *.
  rewrite (policy_stops_at try_body env req self f Hf).
  - rewrite Hlast. destruct o; [reflexivity | reflexivity | contradiction].
  - apply fails_first_retried; assumption.
  - exact Hsleeps.
  - rewrite Hlast. destruct o; [exact I | exact Hstop | contradiction].
Qed.

(** When the first transport call completes with a success status and
    parsed body [body], [request] returns [body] after that single
    call: the trace holds one attempt and no delay. *)
Lemma first_attempt_success (s : option ClientSession)
    (r : Response) (body : value) :
  1 <= retry_attempts self ->
  env O req = Responds r ->
  ok r = true ->
  json r = Ok body ->
  sync_run = (Returns body, [Attempt req])
  /\ async_run s = (Returns body, [Attempt req]).
Proof.
  intros Hn Henv Hok Hjson.
  rewrite request_policy, async_request_policy. fold budget.
  split;
    apply (stops_after_failures _ 0 (Returns body));
    auto using sleeps_return_0;
    try (unfold budget; lia); try (intros i Hi; lia);
    rewrite Henv; cbn; rewrite Hok; exact Hjson.
Qed.

(** When every transport call the budget allows raises an exception of
    the caught class and the backoff sleeps return, [request] raises
    an [APIError] whose status code is 0, whose message is the
    description of the last exception and whose details are empty. *)
Lemma caught_failures_exhaust_budget (s : option ClientSession)
    (e : nat -> lib_exn) :
  1 <= retry_attempts self ->
  (forall i, Z.of_nat i < retry_attempts self ->
             env i req = Fails (e i) /\ transport_error (e i) = true) ->
  sleeps_return self (budget - 1) ->
  let last := Z.to_nat (retry_attempts self - 1) in
  let err := {| message := VStr (descr (e last));
                status_code := 0;
                details := ∅ |} in
  sync_run = (Raises (ExcAPIError err), backoff_trace self req 0 budget)
  /\ async_run s = (Raises (ExcAPIError err), backoff_trace self req 0 budget).
Proof.
  intros Hn Hfail Hsleeps last err.
  rewrite request_policy, async_request_policy.
  split; apply policy_exhausts; auto; intros i Hi;
    destruct (Hfail i Hi) as [He Hte]; exists (ExcLib (e i));
    rewrite He; cbn; rewrite Hte; auto.
Qed.

(** The trace of a run in which [f] caught failures come before a
    success. *)
Lemma failures_then_success_trace (try_body : exchange -> result value)
    (f : nat) (r : Response) (body : value) :
  try_body = sync_try \/ try_body = async_try ->
  fails_first f ->
  env f req = Responds r ->
  ok r = true ->
  json r = Ok body ->
  sleeps_return self (Nat.min f (budget - 1)) ->
  snd (policy_loop try_body env req self budget 0)
  = backoff_trace self req 0 (Nat.min (S f) budget).
Proof.
  intros Htry Hfail Henv Hok Hjson Hsleeps.
  destruct (Nat.eq_dec budget 0%nat) as [H0 | H0].
  - rewrite H0, Nat.min_0_r. reflexivity.
  - destruct (le_lt_dec budget f) as [Hle | Hlt].
    + set (e := fun i => default (mkLibExn true "")
                                 (transport_failure (env i req))).
      unfold budget in *.
      rewrite (policy_exhausts try_body env req self e).
      * rewrite Nat.min_r by lia. reflexivity.
      * lia.
      * intros i Hi. destruct (Hfail i ltac:(lia)) as (ei & Hei & Hte).
        exists (ExcLib ei). unfold e. rewrite Hei. cbn. rewrite Hte. cbn.
        split; [destruct Htry as [-> | ->]; reflexivity | reflexivity].
      * rewrite Nat.min_r in Hsleeps by lia. exact Hsleeps.
    + rewrite (stops_after_failures try_body f (Returns body)); auto.
      * rewrite Nat.min_l by lia. reflexivity.
      * rewrite Nat.min_l in Hsleeps by lia. exact Hsleeps.
      * rewrite Henv. destruct Htry as [-> | ->]; cbn; rewrite Hok;
          exact Hjson.
Qed.

(** C4, amended: when [retry_attempts] is not negative, the transport
    call raises an exception of the caught class [f] times and then
    succeeds, and every backoff sleep of the run returns, [request]
    makes [min (f + 1) retry_attempts] transport calls, and before call
    [k >= 2] it sleeps exactly once, for [retry_delay * 2 ^ (k - 2)];
    [retry_attempts] counts all calls, the first one included. *)
Theorem attempts_and_backoff (s : option ClientSession)
    (f : nat) (r : Response) (body : value) (tr : list event) :
  0 <= retry_attempts self ->
  (forall i, (i < f)%nat ->
             exists e, env i req = Fails e /\ transport_error e = true) ->
  env f req = Responds r ->
  ok r = true ->
  json r = Ok body ->
  sleeps_return self (Nat.min f (Z.to_nat (retry_attempts self) - 1)) ->
  tr = snd sync_run \/ tr = snd (async_run s) ->
  Z.of_nat (attempts tr) = Z.min (Z.of_nat f + 1) (retry_attempts self)
  /\ forall k : nat,
       (2 <= k <= attempts tr)%nat ->
       delays_before k tr
       = Some [(retry_delay self * inject_Z (2 ^ (Z.of_nat k - 2)))%Q].
Proof.
  intros Hn Hfail Henv Hok Hjson Hsleeps Htr.
  assert (Htrace : tr = backoff_trace self req 0 (Nat.min (S f) budget)).
  { destruct Htr as [-> | ->].
    - rewrite request_policy.
      apply (failures_then_success_trace sync_try f r body); auto.
    - rewrite async_request_policy.
      apply (failures_then_success_trace async_try f r body); auto. }
  rewrite Htrace, attempts_backoff_trace. unfold budget. split.
  - lia.
  - intros k Hk. rewrite delays_before_backoff_trace by lia.
    unfold backoff. replace (Z.of_nat (k - 2)) with (Z.of_nat k - 2) by lia.
    reflexivity.
Qed.

End Engines.

(** ** Error responses *)

Section ErrorResponses.

Variable urljoin : string -> string -> string.
Variable env : transport.
Variables (method path : string).
Variables (data params : option (gmap string value)).
Variable headers : option (gmap string string).
Variable self : BaseClient.
Variable new_session : ClientSession.

Let req := build_request urljoin method path data params headers self.
Let sync_run := request urljoin env method path data params headers self.
Let async_run (s : option ClientSession) :=
  fst (async_request urljoin env method path data params headers
         new_session (mkAsyncClient self s)).

(** A non-success response whose error data is the dict [d] ends the
    run on the spot. *)
Lemma policy_http_error (try_body : exchange -> result value)
    (r : Response) (d : gmap string value) (fuel attempt : nat) :
  try_body (env attempt req)
  = raise_for_error_data (VDict d) (resp_status r) ->
  policy_loop try_body env req self (S fuel) attempt
  = (Raises (ExcAPIError
               (mkAPIError (default (VStr "Request failed") (d !! "message"))
                           (resp_status r) d)),
     [Attempt req]).
Proof.
  intros Htry. cbn [policy_loop]. rewrite Htry. simpl.
  rewrite APIError_init_details_id. reflexivity.
Qed.

(** The blocking engine on a non-success first response whose body is
    empty, or parses to a JSON object: one transport call, no delay, an
    [APIError] built from the body and the response's status. *)
Lemma request_http_error (r : Response) (d : gmap string value) :
  1 <= retry_attempts self ->
  env O req = Responds r ->
  ok r = false ->
  (text r = "" /\ d = ∅) \/ (text r <> "" /\ json r = Ok (VDict d)) ->
  sync_run
  = (Raises (ExcAPIError
               (mkAPIError (default (VStr "Request failed") (d !! "message"))
                           (resp_status r) d)),
     [Attempt req]).
Proof.
  intros Hn Henv Hok Hbody. unfold sync_run. rewrite request_policy. fold req.
  destruct (Z.to_nat (retry_attempts self)) as [|fuel] eqn:Hfuel; [lia|].
  apply policy_http_error. rewrite Henv. unfold sync_try. rewrite Hok. simpl.
  destruct Hbody as [[-> ->] | [Ht ->]].
  - reflexivity.
  - rewrite (str_truthy_true _ Ht). reflexivity.
Qed.

(** The same for the non-blocking engine, which looks at the content
    type instead of the body text. *)
Lemma async_request_http_error (s : option ClientSession)
    (r : Response) (d : gmap string value) :
  1 <= retry_attempts self ->
  env O req = Responds r ->
  ok r = false ->
  (content_type r <> "application/json" /\ d = ∅)
  \/ (content_type r = "application/json" /\ json r = Ok (VDict d)) ->
  async_run s
  = (Raises (ExcAPIError
               (mkAPIError (default (VStr "Request failed") (d !! "message"))
                           (resp_status r) d)),
     [Attempt req]).
Proof.
  intros Hn Henv Hok Hbody. unfold async_run. rewrite async_request_policy. fold req.
  destruct (Z.to_nat (retry_attempts self)) as [|fuel] eqn:Hfuel; [lia|].
  apply policy_http_error. rewrite Henv. unfold async_try. rewrite Hok. simpl.
  destruct Hbody as [[Hc ->] | [-> ->]].
  - destruct (String.eqb_spec (content_type r) "application/json");
      [contradiction | reflexivity].
  - reflexivity.
Qed.

End ErrorResponses.

(** ** Headers and the token *)

Lemma _get_headers_no_token (self : BaseClient)
    (extra : option (gmap string string)) :
  token self = None \/ token self = Some "" ->
  _get_headers self extra
  = or_empty extra ∪ {[ "Content-Type" := "application/json" ]}.
Proof. unfold _get_headers. intros [-> | ->]; reflexivity. Qed.

(** C5, amended: the resolved headers are the default
    [Content-Type: application/json] overridden by the caller's headers,
    and, whenever a non-empty token is set, [Authorization] is then set
    to [Bearer <token>], replacing any value the caller supplied under
    that key. *)
Theorem token_overrides_caller_authorization (self : BaseClient)
    (extra : option (gmap string string)) (t : string) :
  token self = Some t ->
  t <> "" ->
  _get_headers self extra
  = <[ "Authorization" := "Bearer " +:+ t ]>
      (or_empty extra ∪ {[ "Content-Type" := "application/json" ]})
  /\ _get_headers self extra !! "Authorization" = Some ("Bearer " +:+ t)
  /\ forall k v, k <> "Authorization" ->
                 or_empty extra !! k = Some v ->
                 _get_headers self extra !! k = Some v.
Proof.
  intros Htok Ht. unfold _get_headers. rewrite Htok, (str_truthy_true _ Ht).
  split; [reflexivity|]. split.
  - apply lookup_insert_eq.
  - intros k v Hk Hv. rewrite lookup_insert_ne by congruence.
    apply lookup_union_Some_l, Hv.
Qed.

(** C10, amended: after [set_token('')] the client adds no
    [Authorization] header: the headers, and with them every run of
    either engine, are those of a client whose token was cleared, and
    the [Authorization] entry is whatever the caller passed, none when
    the caller passed no headers. *)
Theorem empty_token_is_no_token (self : BaseClient)
    (extra : option (gmap string string))
    (urljoin : string -> string -> string) (env : transport)
    (method path : string) (data params : option (gmap string value))
    (new_session : ClientSession) (s : option ClientSession) :
  _get_headers (set_token self "") extra
  = _get_headers (clear_token self) extra
  /\ _get_headers (set_token self "") extra !! "Authorization"
     = or_empty extra !! "Authorization"
  /\ _get_headers (set_token self "") None !! "Authorization" = None
  /\ request urljoin env method path data params extra (set_token self "")
     = request urljoin env method path data params extra (clear_token self)
  /\ fst (async_request urljoin env method path data params extra
            new_session (mkAsyncClient (set_token self "") s))
     = fst (async_request urljoin env method path data params extra
              new_session (mkAsyncClient (clear_token self) s)).
Proof.
  split; [reflexivity|]. split.
  { unfold _get_headers. simpl.
    rewrite lookup_union, lookup_singleton_ne by discriminate.
    destruct (or_empty extra !! "Authorization"); reflexivity. }
  split; [reflexivity|]. split.
  - rewrite !request_policy. simpl.
    apply policy_loop_client; reflexivity.
  - rewrite !async_request_policy. simpl.
    apply policy_loop_client; reflexivity.
Qed.

(** C10, as stated, fails when the caller passes an [Authorization]
    header of its own: after [set_token('')] the request carries it. *)
Lemma empty_token_request_carries_authorization :
  let run :=
    request concat_url (always farm_json) "GET" "/api/trpc/farms.get"
            None (Some {[ "id" := VInt 7 ]})
            (Some {[ "Authorization" := "Basic abc" ]})
            (set_token BaseClient_default "") in
  exists r, snd run = [Attempt r]
            /\ req_headers r !! "Authorization" = Some "Basic abc".
Proof.
  eexists. split; [vm_compute; reflexivity|]. vm_compute. reflexivity.
Qed.

(** C5, as stated, fails for the empty token: it is set, yet the
    caller's [Authorization] value goes out unchanged. *)
Lemma empty_token_keeps_caller_authorization :
  let self := set_token BaseClient_default "" in
  let extra : gmap string string := {[ "Authorization" := "Basic abc" ]} in
  token self = Some ""
  /\ _get_headers self (Some extra) !! "Authorization" = Some "Basic abc"
  /\ _get_headers self (Some extra) !! "Authorization"
     <> Some ("Bearer " +:+ "").
Proof.
  split; [reflexivity|].
  assert (H : _get_headers (set_token BaseClient_default "")
                (Some {[ "Authorization" := "Basic abc" ]})
              !! "Authorization" = Some "Basic abc")
    by (vm_compute; reflexivity).
  split; [exact H|]. cbv zeta. rewrite H. discriminate.
Qed.

Lemma token_overrides_caller_authorization_witness :
  let self := set_token BaseClient_default "secret" in
  let extra : gmap string string := {[ "Authorization" := "Basic abc" ]} in
  _get_headers self (Some extra) !! "Authorization" = Some "Bearer secret".
Proof.
  refine (proj1 (proj2 (token_overrides_caller_authorization
                          (set_token BaseClient_default "secret")
                          (Some {[ "Authorization" := "Basic abc" ]})
                          "secret" _ _))).
  - reflexivity.
  - discriminate.
Defined.

(** ** Optional filters *)

Lemma crops_list_without_status (farm_id : Z) :
  CropsAPI.list_params farm_id None = {[ "farmId" := VInt farm_id ]}
  /\ CropsAPI.list_params farm_id None !! "status" = None.
Proof. split; reflexivity. Qed.

Lemma crops_list_with_status (farm_id : Z) (s : string) :
  s <> "" ->
  CropsAPI.list_params farm_id (Some s)
  = <[ "status" := VStr s ]> {[ "farmId" := VInt farm_id ]}.
Proof.
  intros Hs. unfold CropsAPI.list_params. rewrite (str_truthy_true _ Hs).
  reflexivity.
Qed.

(** The notifications facade tests [read is not None] and so passes
    [False] on. *)
Lemma notifications_list_read_false (limit offset : Z) :
  NotificationsAPI.list_params limit offset (Some false) !! "read"
  = Some (VBool false).
Proof. unfold NotificationsAPI.list_params. apply lookup_insert_eq. Qed.

(** C6: [marketplace.list_products(min_price=0)]: the filter is
    provided, yet the parameters sent are empty, and the call is the
    call without any filter. *)
Theorem zero_price_filter_is_dropped
    (urljoin : string -> string -> string) (env : transport)
    (client : BaseClient) :
  MarketplaceAPI.list_products_params None None (Some 0%Q) None
    !! "minPrice" = None
  /\ MarketplaceAPI.list_products_params None None (Some 0%Q) None = ∅
  /\ MarketplaceAPI.list_products urljoin env client None None (Some 0%Q) None
     = MarketplaceAPI.list_products urljoin env client None None None None.
Proof. repeat split; reflexivity. Qed.

(** ** Runs on concrete exchanges *)

(** A 404 with the body [{"message": "Farm not found"}]: one transport
    call, then an [APIError] with that message and status. *)
Example farm_not_found :
  FarmsAPI.get concat_url (always not_found_json) BaseClient_default 7
  = (Raises (ExcAPIError
               (mkAPIError (VStr "Farm not found") 404
                           {[ "message" := VStr "Farm not found" ]})),
     [Attempt (build_request concat_url "GET" "/api/trpc/farms.get" None
                 (Some {[ "id" := VInt 7 ]}) None BaseClient_default)]).
Proof. vm_compute. reflexivity. Qed.

(** C1: a non-success response whose body is not JSON.  When the
    exception [e] raised by [response.json()] is of the class the
    [except] clause names, the engine treats the 502 as a transport
    failure: three transport calls with two backoff delays.  Otherwise
    [e] leaves [request] as it is, and no [APIError] is raised. *)
Theorem html_error_page_is_retried (e : lib_exn) :
  let run := farms_get_behind_gateway e in
  if transport_error e
  then attempts (snd run) = 3%nat
       /\ delays (snd run)
          = [backoff BaseClient_default 0; backoff BaseClient_default 1]
  else attempts (snd run) = 1%nat
       /\ fst run = Raises (ExcLib e)
       /\ raised_error (fst run) = None.
Proof.
  destruct e as [[|] d]; cbn [transport_error].
  - split; vm_compute; reflexivity.
  - repeat split; vm_compute; reflexivity.
Qed.

(** C2: on that response the error that reaches the caller is never
    the [APIError] with message "Request failed" and status 502: it is
    an [APIError] with status 0 and the message of [e], or [e] itself. *)
Theorem html_error_page_error (e : lib_exn) :
  let run := farms_get_behind_gateway e in
  raised_error (fst run)
  = (if transport_error e
     then Some (mkAPIError (VStr (descr e)) 0 ∅)
     else None)
  /\ raised_error (fst run)
     <> Some (mkAPIError (VStr "Request failed") 502 ∅).
Proof.
  destruct e as [[|] d]; cbn [transport_error descr].
  - split; [vm_compute; reflexivity|].
    vm_compute. intros H. discriminate H.
  - split; [vm_compute; reflexivity|].
    vm_compute. intros H. discriminate H.
Qed.

(** C8: a 404 whose JSON body is served as
    [application/problem+json].  The blocking engine parses every
    non-empty body and reports the body's message and the body as
    details; the non-blocking engine parses only [application/json]
    and reports the default message and no details. *)
Theorem engines_disagree_on_problem_json :
  let sync_run :=
    request concat_url (always problem_json) "GET" "/api/trpc/farms.get"
            None (Some {[ "id" := VInt 7 ]}) None BaseClient_default in
  let async_run :=
    fst (async_request concat_url (always problem_json_aiohttp) "GET"
           "/api/trpc/farms.get" None (Some {[ "id" := VInt 7 ]}) None
           fresh_session (mkAsyncClient BaseClient_default None)) in
  raised_error (fst sync_run)
  = Some (mkAPIError (VStr "Farm not found") 404
                     {[ "message" := VStr "Farm not found" ]})
  /\ raised_error (fst async_run)
     = Some (mkAPIError (VStr "Request failed") 404 ∅)
  /\ snd async_run = snd sync_run
  /\ async_run <> sync_run.
Proof.
  cbv zeta. split; [vm_compute; reflexivity|].
  split; [vm_compute; reflexivity|].
  split; [vm_compute; reflexivity|].
  intros H. apply (f_equal (fun run => message <$> raised_error (fst run))) in H.
  vm_compute in H. discriminate H.
Qed.

(** C3: the total timeout of the non-blocking transport expires.
    [aiohttp] raises [asyncio.TimeoutError], which is no
    [aiohttp.ClientError]: it leaves [request] as it is after one
    transport call, and no [APIError] is raised.  The blocking engine,
    whose [requests.Timeout] is a [RequestException], uses up the
    budget and raises the status-0 [APIError]. *)
Theorem async_timeout_is_not_normalized :
  let req := build_request concat_url "GET" "/api/trpc/farms.get" None
               (Some {[ "id" := VInt 7 ]}) None BaseClient_default in
  let async_run :=
    fst (async_request concat_url (raising timeout_error) "GET"
           "/api/trpc/farms.get" None (Some {[ "id" := VInt 7 ]}) None
           fresh_session (mkAsyncClient BaseClient_default None)) in
  let sync_run :=
    FarmsAPI.get concat_url (raising requests_timeout) BaseClient_default 7 in
  async_run = (Raises (ExcLib timeout_error), [Attempt req])
  /\ raised_error (fst async_run) = None
  /\ attempts (snd sync_run) = 3%nat
  /\ raised_error (fst sync_run)
     = Some (mkAPIError (VStr "Read timed out.") 0 ∅).
Proof. repeat split; vm_compute; reflexivity. Qed.

(** With a budget above 1025 the budget is never used up: after the
    1025th caught failure the power [2 ** 1024] does not convert to a
    float, and [OverflowError] leaves [request]. *)
Example overflow_after_1025_calls :
  let run :=
    FarmsAPI.get concat_url (raising connection_refused)
                 (client_with_budget 1030) 7 in
  fst run = Raises ExcOverflowError
  /\ attempts (snd run) = 1025%nat
  /\ length (delays (snd run)) = 1024%nat.
Proof. repeat split; vm_compute; reflexivity. Qed.

(** C7: a 204 without a body.  In the blocking engine
    [response.json()] raises [e]: when [e] is of the class the [except]
    clause names, the success is handled as a transport failure, with
    three transport calls, two backoff delays and the status-0
    [APIError]; otherwise [e] leaves [request] as it is.  In the
    non-blocking engine [response.json()] refuses the content type
    with an [aiohttp.ContentTypeError], which is caught, and the run
    is the same.  Nothing is returned in any case. *)
Theorem no_content_is_retried (e : lib_exn) :
  let sync_run :=
    FarmsAPI.delete concat_url (always (empty_success e))
                    BaseClient_default 7 in
  let async_run :=
    fst (async_request concat_url
           (always (empty_success content_type_error)) "DELETE"
           "/api/trpc/farms.delete" None (Some {[ "id" := VInt 7 ]}) None
           fresh_session (mkAsyncClient BaseClient_default None)) in
  (if transport_error e
   then attempts (snd sync_run) = 3%nat
        /\ delays (snd sync_run)
           = [backoff BaseClient_default 0; backoff BaseClient_default 1]
        /\ fst sync_run
           = Raises (ExcAPIError (mkAPIError (VStr (descr e)) 0 ∅))
   else attempts (snd sync_run) = 1%nat
        /\ fst sync_run = Raises (ExcLib e))
  /\ attempts (snd async_run) = 3%nat
  /\ delays (snd async_run)
     = [backoff BaseClient_default 0; backoff BaseClient_default 1]
  /\ fst async_run
     = Raises (ExcAPIError
                 (mkAPIError (VStr (descr content_type_error)) 0 ∅)).
Proof.
  destruct e as [[|] d]; cbn [transport_error descr];
    repeat split; vm_compute; reflexivity.
Qed.

(** A session the client already holds is the one it keeps. *)
Example existing_session_is_kept :
  session (snd (async_request concat_url (always farm_json) "GET"
                  "/api/trpc/farms.get" None (Some {[ "id" := VInt 7 ]})
                  None fresh_session
                  (mkAsyncClient BaseClient_default (Some a_session))))
  = Some a_session.
Proof. reflexivity. Qed.

(** C4, as stated, fails for a negative budget: no transport call is
    made, while the minimum of [0 + 1] and [-1] is [-1]. *)
Lemma negative_budget_makes_no_attempt :
  let tr := snd (FarmsAPI.get concat_url (always farm_json)
                   (client_with_budget (-1)) 7) in
  attempts tr = 0%nat
  /\ Z.of_nat (attempts tr)
     <> Z.min (Z.of_nat 0 + 1) (retry_attempts (client_with_budget (-1))).
Proof. split; [reflexivity|]. vm_compute. discriminate. Qed.
(** ** The theorems at work *)

Lemma no_budget_returns_none_witness :
  FarmsAPI.get concat_url (always farm_json) (client_with_budget 0) 7
  = (Returns VNone, []).
Proof.
  refine (proj1 (no_budget_returns_none concat_url (always farm_json)
                   "GET" "/api/trpc/farms.get" None
                   (Some {[ "id" := VInt 7 ]}) None
                   (client_with_budget 0) fresh_session None _)).
  simpl. lia.
Defined.

(** Three attempts allowed, one second of base delay, two refusals and
    then an answer: three transport calls, a delay of 1 before the
    second and of 2 before the third. *)
Lemma attempts_and_backoff_witness :
  let tr := snd (FarmsAPI.get concat_url (refuse_then 2 farm_json)
                   BaseClient_default 7) in
  Z.of_nat (attempts tr) = Z.min (Z.of_nat 2 + 1) 3
  /\ forall k : nat,
       (2 <= k <= attempts tr)%nat ->
       delays_before k tr
       = Some [(1 * inject_Z (2 ^ (Z.of_nat k - 2)))%Q].
Proof.
  refine (attempts_and_backoff concat_url (refuse_then 2 farm_json)
            "GET" "/api/trpc/farms.get" None
            (Some {[ "id" := VInt 7 ]}) None
            BaseClient_default fresh_session None 2 farm_json
            (VDict {[ "name" := VStr "Green Acres" ]}) _ _ _ _ _ _ _ _).
  - simpl. lia.
  - intros i Hi. exists connection_refused.
    destruct i as [|[|i]]; [split; reflexivity | split; reflexivity | lia].
  - reflexivity.
  - reflexivity.
  - reflexivity.
  - split; [vm_compute; lia|].
    intros j Hj. destruct j as [|[|j]];
      [vm_compute; reflexivity | vm_compute; reflexivity | vm_compute in Hj; lia].
  - left. reflexivity.
Defined.

(** ** Every run of either engine *)

Section EveryRun.

Variable urljoin : string -> string -> string.
Variable env : transport.
Variables (method path : string).
Variables (data params : option (gmap string value)).
Variable headers : option (gmap string string).
Variable self : BaseClient.
Variable new_session : ClientSession.

Let req := build_request urljoin method path data params headers self.
Let sync_run := request urljoin env method path data params headers self.
Let async_run (s : option ClientSession) :=
  fst (async_request urljoin env method path data params headers
         new_session (mkAsyncClient self s)).
Let budget := Z.to_nat (retry_attempts self).



(** X3: With [retry_attempts = 1] a run is one transport call and no
    sleep, whatever the transport does. *)
Theorem budget_of_one_never_sleeps (s : option ClientSession)
    (run : outcome * list event) :
  retry_attempts self = 1 ->
  run = sync_run \/ run = async_run s ->
  snd run = [Attempt req].
Proof.
  intros Hn Hrun.
  destruct (engine_run_policy _ _ _ _ _ _ _ _ _ s run Hrun)
    as (try_body & _ & ->).
  fold req. rewrite Hn. change (Z.to_nat 1) with 1%nat.
  destruct (policy_loop_anatomy try_body env req self 0 0 ltac:(lia))
    as (m & Hm & Htr & _).
  rewrite Htr. replace m with 1%nat by lia. reflexivity.
Qed.

(** X4: A run never falls out of the loop once it has a budget: a returned
    value is the body parsed off the last response, which reported
    success; only without a budget is it the [None] of the function's
    end. *)
Theorem returned_value_provenance (s : option ClientSession)
    (run : outcome * list event) (v : value) :
  run = sync_run \/ run = async_run s ->
  fst run = Returns v ->
  (retry_attempts self <= 0 /\ v = VNone /\ snd run = [])
  \/ (exists r, env (attempts (snd run) - 1)%nat req = Responds r
                /\ ok r = true /\ json r = Ok v).
Proof.
  intros Hrun Hret.
  destruct (engine_run_policy _ _ _ _ _ _ _ _ _ s run Hrun)
    as (try_body & Htry & ->).
  fold req in Hret |- *.
  destruct (Z.to_nat (retry_attempts self)) as [|fuel] eqn:Hfuel.
  - left. cbn in Hret. injection Hret as <-.
    split; [lia|]. split; reflexivity.
  - right.
    destruct (policy_loop_anatomy try_body env req self fuel 0 ltac:(lia))
      as (m & Hm & Htr & _ & Hlast).
    rewrite Htr, attempts_backoff_trace. cbn [Nat.add] in Hlast.
    destruct (try_body (env (m - 1)%nat req)) as [v'|x] eqn:Hx.
    + rewrite Hlast in Hret. injection Hret as ->.
      destruct Htry as [-> | ->];
        [apply sync_try_Ok, Hx | apply async_try_Ok, Hx].
    + exfalso. destruct (caught x).
      * destruct (m <? S fuel)%nat.
        -- destruct (backoff_sleep self (m - 1)); try contradiction;
             rewrite Hlast in Hret; discriminate.
        -- rewrite Hlast in Hret. discriminate.
      * rewrite Hlast in Hret. discriminate.
Qed.

(** X5: Where an [APIError] comes from, given that [response.json()] never
    raises one itself: its status is the status of the last response,
    which reported failure, or it is the status-0 error raised after
    the last transport call the budget allows. *)
Theorem api_error_provenance (s : option ClientSession)
    (run : outcome * list event) (err : APIError) :
  run = sync_run \/ run = async_run s ->
  (forall i r err', env i req = Responds r ->
                    json r <> Raise (ExcAPIError err')) ->
  fst run = Raises (ExcAPIError err) ->
  (exists r, env (attempts (snd run) - 1)%nat req = Responds r
             /\ ok r = false /\ status_code err = resp_status r)
  \/ (status_code err = 0 /\ details err = ∅
      /\ attempts (snd run) = budget).
Proof.
  intros Hrun Hjson Hraise.
  destruct (engine_run_policy _ _ _ _ _ _ _ _ _ s run Hrun)
    as (try_body & Htry & ->).
  fold req in Hraise |- *.
  unfold budget in *.
  destruct (Z.to_nat (retry_attempts self)) as [|fuel] eqn:Hfuel;
    [discriminate Hraise|].
  destruct (policy_loop_anatomy try_body env req self fuel 0 ltac:(lia))
    as (m & Hm & Htr & _ & Hlast).
  rewrite Htr, attempts_backoff_trace. cbn [Nat.add] in Hlast.
  destruct (try_body (env (m - 1)%nat req)) as [v'|x] eqn:Hx.
  - rewrite Hlast in Hraise. discriminate.
  - destruct (caught x) as [e|] eqn:Hc.
    + destruct (m <? S fuel)%nat eqn:Hlt.
      * exfalso. destruct (backoff_sleep self (m - 1)); try contradiction;
          rewrite Hlast in Hraise; discriminate.
      * apply Nat.ltb_ge in Hlt. rewrite Hlast in Hraise.
        injection Hraise as <-. right. repeat split; try reflexivity. lia.
    + rewrite Hlast in Hraise. injection Hraise as ->. left.
      assert (Hinv : exists r, env (m - 1)%nat req = Responds r
                /\ ((ok r = false /\ status_code err = resp_status r)
                    \/ json r = Raise (ExcAPIError err))).
      { destruct Htry as [-> | ->];
          [apply sync_try_APIError, Hx | apply async_try_APIError, Hx]. }
      destruct Hinv as (r & Hr & [[Hok Hst] | Hj]).
      * exists r. auto.
      * exfalso. apply (Hjson _ _ _ Hr Hj).
Qed.

End EveryRun.

(** ** Runs that start with caught failures *)

Section AfterFailures.

Variable urljoin : string -> string -> string.
Variable env : transport.
Variables (method path : string).
Variables (data params : option (gmap string value)).
Variable headers : option (gmap string string).
Variable self : BaseClient.
Variable new_session : ClientSession.

Let req := build_request urljoin method path data params headers self.
Let sync_run := request urljoin env method path data params headers self.
Let async_run (s : option ClientSession) :=
  fst (async_request urljoin env method path data params headers
         new_session (mkAsyncClient self s)).
Let budget := Z.to_nat (retry_attempts self).

(** The first [f] transport calls raise an exception of the class the
    [except] clause names. *)
Let fails_first (f : nat) : Prop :=
  forall i, (i < f)%nat ->
            exists e, env i req = Fails e /\ transport_error e = true.

(** What both engines do once [f] caught failures and their sleeps are
    behind them and the [try] blocks end call [f + 1] with [o]. *)
Lemma both_stop_after_failures (s : option ClientSession) (f : nat)
    (o : outcome) :
  (f < budget)%nat ->
  fails_first f ->
  sleeps_return self f ->
  sync_try (env f req)
  = match o with
    | Returns v => Ok v
    | Raises x => Raise x
    | Hangs => Raise ExcOverflowError
    end ->
  async_try (env f req) = sync_try (env f req) ->
  match o with
  | Returns _ => True
  | Raises x => caught x = None
  | Hangs => False
  end ->
  sync_run = (o, backoff_trace self req 0 (S f))
  /\ async_run s = (o, backoff_trace self req 0 (S f)).
Proof.
  intros Hf Hfail Hsleeps Hsync Hasync Hstop. unfold sync_run, async_run.
  rewrite request_policy, async_request_policy. fold req budget.
  split; apply stops_after_failures; auto. fold req. congruence.
Qed.

(** X6: After [f] caught failures whose backoff sleeps return, with
    budget left, a success is returned: call [f + 1] is the last, and
    its parsed body is the result. *)
Theorem retry_recovers (s : option ClientSession) (f : nat)
    (r : Response) (body : value) :
  (f < budget)%nat ->
  fails_first f ->
  sleeps_return self f ->
  env f req = Responds r ->
  ok r = true ->
  json r = Ok body ->
  sync_run = (Returns body, backoff_trace self req 0 (S f))
  /\ async_run s = (Returns body, backoff_trace self req 0 (S f)).
Proof.
  intros Hf Hfail Hsleeps Henv Hok Hjson.
  apply both_stop_after_failures; auto; rewrite Henv; cbn; rewrite Hok;
    cbn; auto.
Qed.

(** X7: An exception of the transport call that is not of the class the
    [except] clause names is not retried and not wrapped: it leaves
    [request] as it is, also after earlier retries. *)
Theorem foreign_exception_escapes (s : option ClientSession) (f : nat)
    (e : lib_exn) :
  (f < budget)%nat ->
  fails_first f ->
  sleeps_return self f ->
  env f req = Fails e ->
  transport_error e = false ->
  sync_run = (Raises (ExcLib e), backoff_trace self req 0 (S f))
  /\ async_run s = (Raises (ExcLib e), backoff_trace self req 0 (S f)).
Proof.
  intros Hf Hfail Hsleeps Henv He.
  apply both_stop_after_failures; auto; try (rewrite Henv; reflexivity).
  cbn. rewrite He. reflexivity.
Qed.

(** X8: A non-success response ends the run also after earlier retries.
    With a JSON object as body (non-empty text, served as
    [application/json]) the error carries the body's ["message"], or
    "Request failed" when the object has none, the response's status
    and the object as details; with no body (empty text, another
    content type) it carries "Request failed" and empty details. *)
Theorem http_error_after_failures (s : option ClientSession) (f : nat)
    (r : Response) (d : gmap string value) :
  (f < budget)%nat ->
  fails_first f ->
  sleeps_return self f ->
  env f req = Responds r ->
  ok r = false ->
  (text r = "" /\ content_type r <> "application/json" /\ d = ∅)
  \/ (text r <> "" /\ content_type r = "application/json"
      /\ json r = Ok (VDict d)) ->
  let err := mkAPIError (default (VStr "Request failed") (d !! "message"))
                        (resp_status r) d in
  sync_run = (Raises (ExcAPIError err), backoff_trace self req 0 (S f))
  /\ async_run s = (Raises (ExcAPIError err), backoff_trace self req 0 (S f)).
Proof.
  intros Hf Hfail Hsleeps Henv Hok Hbody err.
  assert (Hs : sync_try (env f req) = Raise (ExcAPIError err)).
  { rewrite Henv. unfold sync_try. rewrite Hok. cbn [negb].
    destruct Hbody as [(-> & _ & ->) | (Ht & _ & ->)].
    - cbn. rewrite APIError_init_details_id. reflexivity.
    - rewrite (str_truthy_true _ Ht). cbn.
      rewrite APIError_init_details_id. reflexivity. }
  assert (Ha : async_try (env f req) = Raise (ExcAPIError err)).
  { rewrite Henv. unfold async_try. rewrite Hok. cbn [negb].
    destruct Hbody as [(_ & Hc & ->) | (_ & -> & ->)].
    - destruct (String.eqb_spec (content_type r) "application/json");
        [contradiction|].
      cbn. rewrite APIError_init_details_id. reflexivity.
    - cbn. rewrite APIError_init_details_id. reflexivity. }
  apply both_stop_after_failures; auto. congruence.
Qed.


(** X10: A response that reports success but whose [json()] raises an
    exception of the caught class is handled as a transport failure.
    When every call the budget allows ends so and the backoff sleeps
    return, the run sleeps between the calls and raises the status-0
    [APIError] describing the last decode failure. *)
Theorem undecodable_success_is_retried (s : option ClientSession)
    (r : nat -> Response) (e : nat -> lib_exn) :
  1 <= retry_attempts self ->
  (forall i, Z.of_nat i < retry_attempts self ->
             env i req = Responds (r i)
             /\ ok (r i) = true
             /\ json (r i) = Raise (ExcLib (e i))
             /\ transport_error (e i) = true) ->
  sleeps_return self (budget - 1) ->
  let err := mkAPIError (VStr (descr (e (Z.to_nat (retry_attempts self - 1)))))
                        0 ∅ in
  sync_run = (Raises (ExcAPIError err), backoff_trace self req 0 budget)
  /\ async_run s = (Raises (ExcAPIError err), backoff_trace self req 0 budget).
Proof.
  intros Hn Hall Hsleeps err. unfold sync_run, async_run.
  rewrite request_policy, async_request_policy. fold req.
  split; apply policy_exhausts; auto; intros i Hi;
    destruct (Hall i Hi) as (Henv & Hok & Hjson & He);
    exists (ExcLib (e i)); rewrite Henv; cbn; rewrite Hok, He; cbn;
    auto.
Qed.

End AfterFailures.

(** * Headers, token and session *)

(** X11: The caller may replace the default content type; nobody else
    does, whatever the token. *)
Theorem content_type_header (self : BaseClient)
    (extra : option (gmap string string)) :
  _get_headers self extra !! "Content-Type"
  = Some (default "application/json" (or_empty extra !! "Content-Type")).
Proof.
  assert (H : (or_empty extra ∪ {[ "Content-Type" := "application/json" ]})
                !! "Content-Type"
              = Some (default "application/json"
                              (or_empty extra !! "Content-Type"))).
  { rewrite lookup_union, lookup_singleton_eq.
    destruct (or_empty extra !! "Content-Type"); reflexivity. }
  unfold _get_headers. destruct (token self) as [t|]; [|exact H].
  destruct (str_truthy t); [|exact H].
  rewrite lookup_insert_ne by discriminate. exact H.
Qed.

(** X12: The header names of a request are the caller's, [Content-Type],
    and [Authorization] when the token is truthy: nothing else. *)
Theorem header_names (self : BaseClient)
    (extra : option (gmap string string)) :
  dom (_get_headers self extra)
  = (match token self with
     | Some t => if str_truthy t then {[ "Authorization" ]} else ∅
     | None => ∅
     end) ∪ dom (or_empty extra) ∪ {[ "Content-Type" ]}.
Proof.
  unfold _get_headers. destruct (token self) as [t|].
  - destruct (str_truthy t).
    + rewrite dom_insert_L, dom_union_L, dom_singleton_L.
      rewrite (assoc_L (∪)). reflexivity.
    + rewrite dom_union_L, dom_singleton_L, (left_id_L ∅ (∪)). reflexivity.
  - rewrite dom_union_L, dom_singleton_L, (left_id_L ∅ (∪)). reflexivity.
Qed.

(** X13: After [set_token(t)] with a non-empty [t], every transport call of
    every run carries [Bearer t], whatever token was set before and
    whatever the caller passes as headers; URL, timeout, body and
    query parameters are those of the client before the call. *)
Theorem token_rotation (urljoin : string -> string -> string)
    (env : transport) (method path : string)
    (data params : option (gmap string value))
    (headers : option (gmap string string)) (self : BaseClient)
    (new_session : ClientSession) (s : option ClientSession) (t : string)
    (run : outcome * list event) (r : Request) :
  t <> "" ->
  run = request urljoin env method path data params headers
          (set_token self t)
  \/ run = fst (async_request urljoin env method path data params headers
                  new_session (mkAsyncClient (set_token self t) s)) ->
  In (Attempt r) (snd run) ->
  req_headers r !! "Authorization" = Some ("Bearer " +:+ t)
  /\ req_method r = method
  /\ req_url r = urljoin (base_url self) path
  /\ req_json r = data
  /\ req_params r = params
  /\ req_timeout r = timeout self.
Proof.
  intros Ht Hrun Hin.
  destruct (engine_run_trace urljoin env method path data params headers
              (set_token self t) new_session s run Hrun) as (m & _ & Htr).
  rewrite Htr in Hin. apply backoff_trace_requests in Hin. subst r.
  cbn [build_request req_headers req_method req_url req_json req_params
       req_timeout set_token base_url timeout].
  split; [|repeat split].
  unfold _get_headers. cbn [token set_token].
  rewrite (str_truthy_true _ Ht). apply lookup_insert_eq.
Qed.

(** X14: [request] creates a session only when the client has none:
    a session the client already has is kept, whatever object the
    constructor would return; the configuration is never touched, and
    a further request, whatever it asks for, leaves the client as it
    is. *)
Theorem session_created_once (urljoin : string -> string -> string)
    (env env' : transport) (method path method' path' : string)
    (data params data' params' : option (gmap string value))
    (headers headers' : option (gmap string string))
    (new_session new_session' : ClientSession)
    (self : AsyncFarmKonnectClient) :
  let self1 :=
    snd (async_request urljoin env method path data params headers
           new_session self) in
  let self2 :=
    snd (async_request urljoin env' method' path' data' params' headers'
           new_session' self1) in
  session self1 = Some (default new_session (session self))
  /\ async_base self1 = async_base self
  /\ self2 = self1.
Proof.
  destruct self as [base [sess|]]; cbn; repeat split.
Qed.

(** * Facades *)

Lemma str_truthy_iff (s : string) : str_truthy s = true <-> s <> "".
Proof.
  unfold str_truthy. destruct (String.eqb_spec s ""); cbn; split; congruence.
Qed.

Lemma float_truthy_iff (q : Q) : float_truthy q = true <-> ~ (q == 0)%Q.
Proof.
  unfold float_truthy. rewrite negb_true_iff, <- Qeq_bool_iff.
  destruct (Qeq_bool q 0); split; congruence.
Qed.

(** Looking a key up after one guarded [params[k] = ...]. *)
Lemma lookup_optional_insert {A : Type} (k k' : string) (o : option A)
    (P : A -> bool) (f : A -> value) (params : gmap string value) :
  (match o with
   | Some a => if P a then <[ k := f a ]> params else params
   | None => params
   end) !! k'
  = if decide (k = k')
    then match o with
         | Some a => if P a then Some (f a) else params !! k'
         | None => params !! k'
         end
    else params !! k'.
Proof.
  destruct o as [a|]; [destruct (P a)|]; case_decide; subst;
    rewrite ?lookup_insert_eq, ?lookup_insert_ne by assumption; reflexivity.
Qed.

Lemma sent_string_iff (o : option string) (v : value) :
  match o with
  | Some s => if str_truthy s then Some (VStr s) else None
  | None => None
  end = Some v
  <-> exists s, o = Some s /\ s <> "" /\ v = VStr s.
Proof.
  destruct o as [s|].
  - destruct (str_truthy s) eqn:Hs.
    + apply str_truthy_iff in Hs. split.
      * intros [= <-]. eauto.
      * intros (s' & [= <-] & _ & ->). reflexivity.
    + split; [discriminate|]. intros (s' & [= <-] & Hs' & _).
      apply str_truthy_iff in Hs'. congruence.
  - split; [discriminate|]. intros (s' & [=] & _).
Qed.

Lemma sent_price_iff (o : option Q) (v : value) :
  match o with
  | Some p => if float_truthy p then Some (VFloat p) else None
  | None => None
  end = Some v
  <-> exists p, o = Some p /\ ~ (p == 0)%Q /\ v = VFloat p.
Proof.
  destruct o as [p|].
  - destruct (float_truthy p) eqn:Hp.
    + apply float_truthy_iff in Hp. split.
      * intros [= <-]. eauto.
      * intros (p' & [= <-] & _ & ->). reflexivity.
    + split; [discriminate|]. intros (p' & [= <-] & Hp' & _).
      apply float_truthy_iff in Hp'. congruence.
  - split; [discriminate|]. intros (p' & [=] & _).
Qed.

#[local] Ltac lookup_params :=
  cbv zeta;
  rewrite ?lookup_optional_insert, ?lookup_empty;
  repeat (case_decide; try congruence);
  rewrite ?lookup_insert_eq, ?lookup_insert_ne, ?lookup_singleton_eq,
    ?lookup_singleton_ne by congruence.

(** X15: [crops.list] and [livestock.list] always send [farmId]; the
    optional [status] / [type] is sent exactly when a non-empty string
    is passed, so the empty string is an absent filter. *)
Theorem string_filter_sent_iff_non_empty (farm_id : Z)
    (filter : option string) (v : value) :
  CropsAPI.list_params farm_id filter !! "farmId" = Some (VInt farm_id)
  /\ (CropsAPI.list_params farm_id filter !! "status" = Some v
      <-> exists s, filter = Some s /\ s <> "" /\ v = VStr s)
  /\ CropsAPI.list_params farm_id (Some "") = CropsAPI.list_params farm_id None
  /\ LivestockAPI.list_params farm_id filter !! "farmId" = Some (VInt farm_id)
  /\ (LivestockAPI.list_params farm_id filter !! "type" = Some v
      <-> exists s, filter = Some s /\ s <> "" /\ v = VStr s)
  /\ LivestockAPI.list_params farm_id (Some "")
     = LivestockAPI.list_params farm_id None.
Proof.
  unfold CropsAPI.list_params, LivestockAPI.list_params.
  repeat split; try reflexivity; lookup_params; try reflexivity;
    try apply sent_string_iff;
    destruct (sent_string_iff filter v) as [H1 H2]; auto.
Qed.

(** X16: [financial.get_expenses] and [financial.get_revenue] build the
    same parameters: [farmId] always, and each of [startDate] and
    [endDate] exactly when it is passed as a non-empty string,
    independently of the other. *)
Theorem date_filters_are_independent (farm_id : Z)
    (start_date end_date : option string) (v : value) :
  let params := FinancialAPI.get_expenses_params farm_id start_date end_date in
  params !! "farmId" = Some (VInt farm_id)
  /\ (params !! "startDate" = Some v
      <-> exists s, start_date = Some s /\ s <> "" /\ v = VStr s)
  /\ (params !! "endDate" = Some v
      <-> exists s, end_date = Some s /\ s <> "" /\ v = VStr s)
  /\ FinancialAPI.get_revenue_params farm_id start_date end_date = params.
Proof.
  unfold FinancialAPI.get_expenses_params, FinancialAPI.get_revenue_params.
  repeat split; try reflexivity; lookup_params; try reflexivity;
    try (destruct (sent_string_iff start_date v) as [H1 H2]; auto; fail);
    destruct (sent_string_iff end_date v) as [H1 H2]; auto.
Qed.

(** X17: [marketplace.list_products] sends each text filter exactly when it
    is a non-empty string and each price bound exactly when it is a
    number other than zero; no filter affects another. *)
Theorem product_filters (search category : option string)
    (min_price max_price : option Q) (v : value) :
  let params :=
    MarketplaceAPI.list_products_params search category min_price max_price in
  (params !! "search" = Some v
   <-> exists s, search = Some s /\ s <> "" /\ v = VStr s)
  /\ (params !! "category" = Some v
      <-> exists s, category = Some s /\ s <> "" /\ v = VStr s)
  /\ (params !! "minPrice" = Some v
      <-> exists p, min_price = Some p /\ ~ (p == 0)%Q /\ v = VFloat p)
  /\ (params !! "maxPrice" = Some v
      <-> exists p, max_price = Some p /\ ~ (p == 0)%Q /\ v = VFloat p).
Proof.
  unfold MarketplaceAPI.list_products_params.
  split; [|split; [|split]]; lookup_params.
  - apply sent_string_iff.
  - apply sent_string_iff.
  - apply sent_price_iff.
  - apply sent_price_iff.
Qed.

(** X18: What [marketplace.list_products] sends has no name besides the
    four filters; with no filter it is the empty dict, not [None]. *)
Theorem product_filter_names (search category : option string)
    (min_price max_price : option Q) :
  dom (MarketplaceAPI.list_products_params search category min_price max_price)
  ⊆ {[ "search"; "category"; "minPrice"; "maxPrice" ]}
  /\ MarketplaceAPI.list_products_params None None None None = ∅.
Proof.
  split; [|reflexivity].
  unfold MarketplaceAPI.list_products_params.
  intros k Hk. apply elem_of_dom in Hk as [v Hv]. revert Hv.
  cbv zeta. rewrite !lookup_optional_insert, lookup_empty.
  repeat case_decide; subst; intros Hv;
    repeat match type of Hv with
           | context [match ?o with Some _ => _ | None => _ end] =>
               destruct o
           | context [if ?b then _ else _] => destruct b
           end;
    try discriminate Hv; set_unfold; tauto.
Qed.

(** X19: [notifications.list] always sends [limit] and [offset], zero
    included, and sends [read] whenever it is passed, [False]
    included. *)
Theorem notification_filters (limit offset : Z) (read : option bool) :
  let params := NotificationsAPI.list_params limit offset read in
  params !! "limit" = Some (VInt limit)
  /\ params !! "offset" = Some (VInt offset)
  /\ params !! "read" = VBool <$> read.
Proof.
  unfold NotificationsAPI.list_params. cbv zeta.
  destruct read as [b|]; cbn [fmap option_fmap option_map];
    repeat split;
    rewrite ?lookup_insert_eq, ?lookup_insert_ne, ?lookup_singleton_eq,
      ?lookup_singleton_ne by congruence;
    reflexivity.
Qed.

(** Every facade method is one call of the engine's [request]. *)
Lemma call_is_request (urljoin : string -> string -> string)
    (env : transport) (client : BaseClient) (op : operation) :
  exists method path data params,
    call urljoin env client op
    = request urljoin env method path data params None client.
Proof. destruct op; do 4 eexists; reflexivity. Qed.

(** X20: Every facade method is one call of the engine's [request], with
    one of the four HTTP methods, a path under [/api/trpc/] and no
    headers of its own; the [GET] and [DELETE] methods send no body. *)
Theorem facade_contract (urljoin : string -> string -> string)
    (env : transport) (client : BaseClient) (op : operation) :
  exists method path data params,
    call urljoin env client op
    = request urljoin env method path data params None client
    /\ In method ["GET"; "POST"; "PUT"; "DELETE"]
    /\ String.prefix "/api/trpc/" path = true
    /\ (method = "GET" \/ method = "DELETE" -> data = None).
Proof.
  destruct op; do 4 eexists; (split; [reflexivity|]);
    (split; [cbn; tauto|]); (split; [reflexivity|]);
    intros [H | H]; try reflexivity; discriminate H.
Qed.

(** X21: Every transport call made on behalf of a facade method carries the
    client's timeout and exactly the engine's own headers: the JSON
    content type, and the bearer token when the token is truthy. *)
Theorem facade_headers (urljoin : string -> string -> string)
    (env : transport) (client : BaseClient) (op : operation) (r : Request) :
  In (Attempt r) (snd (call urljoin env client op)) ->
  req_timeout r = timeout client
  /\ req_headers r
     = match token client with
       | Some t =>
           if str_truthy t
           then <[ "Authorization" := "Bearer " +:+ t ]>
                  {[ "Content-Type" := "application/json" ]}
           else {[ "Content-Type" := "application/json" ]}
       | None => {[ "Content-Type" := "application/json" ]}
       end.
Proof.
  intros Hin.
  destruct (call_is_request urljoin env client op)
    as (method & path & data & params & Hcall).
  rewrite Hcall in Hin.
  destruct (engine_run_trace urljoin env method path data params None
              client fresh_session None _ (or_introl eq_refl))
    as (m & _ & Htr).
  rewrite Htr in Hin. apply backoff_trace_requests in Hin. subst r.
  split; [reflexivity|].
  cbn [build_request req_headers]. unfold _get_headers. cbn [or_empty].
  rewrite (left_id_L ∅ (∪)). reflexivity.
Qed.

(** * The theorems on concrete runs *)



Lemma budget_of_one_never_sleeps_witness :
  snd (FarmsAPI.get concat_url (raising connection_refused)
         (client_with_budget 1) 7)
  = [Attempt (build_request concat_url "GET" "/api/trpc/farms.get" None
                (Some {[ "id" := VInt 7 ]}) None (client_with_budget 1))].
Proof.
  refine (budget_of_one_never_sleeps concat_url (raising connection_refused)
            "GET" "/api/trpc/farms.get" None (Some {[ "id" := VInt 7 ]})
            None (client_with_budget 1) fresh_session None _ _ _).
  - reflexivity.
  - left. reflexivity.
Defined.

Lemma returned_value_provenance_witness :
  let run := FarmsAPI.get concat_url (refuse_then 2 farm_json)
               BaseClient_default 7 in
  let req := build_request concat_url "GET" "/api/trpc/farms.get" None
               (Some {[ "id" := VInt 7 ]}) None BaseClient_default in
  (3 <= 0 /\ VDict {[ "name" := VStr "Green Acres" ]} = VNone /\ snd run = [])
  \/ (exists r, refuse_then 2 farm_json (attempts (snd run) - 1)%nat req
                = Responds r
                /\ ok r = true
                /\ json r = Ok (VDict {[ "name" := VStr "Green Acres" ]})).
Proof.
  refine (returned_value_provenance concat_url (refuse_then 2 farm_json)
            "GET" "/api/trpc/farms.get" None (Some {[ "id" := VInt 7 ]})
            None BaseClient_default fresh_session None _
            (VDict {[ "name" := VStr "Green Acres" ]}) _ _).
  - left. reflexivity.
  - vm_compute. reflexivity.
Defined.

Lemma api_error_provenance_witness :
  let run := FarmsAPI.get concat_url (always not_found_json)
               BaseClient_default 7 in
  let req := build_request concat_url "GET" "/api/trpc/farms.get" None
               (Some {[ "id" := VInt 7 ]}) None BaseClient_default in
  (exists r, always not_found_json (attempts (snd run) - 1)%nat req
             = Responds r
             /\ ok r = false /\ 404 = resp_status r)
  \/ (404 = 0
      /\ ({[ "message" := VStr "Farm not found" ]} : gmap string value) = ∅
      /\ attempts (snd run) = 3%nat).
Proof.
  refine (api_error_provenance concat_url (always not_found_json)
            "GET" "/api/trpc/farms.get" None (Some {[ "id" := VInt 7 ]})
            None BaseClient_default fresh_session None _
            (mkAPIError (VStr "Farm not found") 404
                        {[ "message" := VStr "Farm not found" ]}) _ _ _).
  - left. reflexivity.
  - intros i r err' Hr. injection Hr as <-. discriminate.
  - vm_compute. reflexivity.
Defined.

Lemma retry_recovers_witness :
  FarmsAPI.get concat_url (refuse_then 2 farm_json) BaseClient_default 7
  = (Returns (VDict {[ "name" := VStr "Green Acres" ]}),
     backoff_trace BaseClient_default
       (build_request concat_url "GET" "/api/trpc/farms.get" None
          (Some {[ "id" := VInt 7 ]}) None BaseClient_default) 0 3).
Proof.
  refine (proj1 (retry_recovers concat_url (refuse_then 2 farm_json)
                   "GET" "/api/trpc/farms.get" None
                   (Some {[ "id" := VInt 7 ]}) None BaseClient_default
                   fresh_session None
                   2 farm_json (VDict {[ "name" := VStr "Green Acres" ]})
                   _ _ _ _ _ _)).
  - vm_compute. lia.
  - intros i Hi. exists connection_refused.
    destruct i as [|[|i]]; [split; reflexivity | split; reflexivity | lia].
  - split; [lia|]. intros j Hj.
    destruct j as [|[|j]];
      [vm_compute; reflexivity | vm_compute; reflexivity | lia].
  - reflexivity.
  - reflexivity.
  - reflexivity.
Defined.

Lemma foreign_exception_escapes_witness :
  FarmsAPI.get concat_url (raising timeout_error) BaseClient_default 7
  = (Raises (ExcLib timeout_error),
     [Attempt (build_request concat_url "GET" "/api/trpc/farms.get" None
                 (Some {[ "id" := VInt 7 ]}) None BaseClient_default)]).
Proof.
  refine (proj1 (foreign_exception_escapes concat_url (raising timeout_error)
                   "GET" "/api/trpc/farms.get" None
                   (Some {[ "id" := VInt 7 ]}) None BaseClient_default
                   fresh_session None
                   0 timeout_error _ _ _ _ _)).
  - vm_compute. lia.
  - intros i Hi. lia.
  - split; [lia|]. intros j Hj. lia.
  - reflexivity.
  - reflexivity.
Defined.

Lemma http_error_after_failures_witness :
  FarmsAPI.get concat_url (refuse_then 1 not_found_json) BaseClient_default 7
  = (Raises (ExcAPIError
               (mkAPIError (VStr "Farm not found") 404
                           {[ "message" := VStr "Farm not found" ]})),
     backoff_trace BaseClient_default
       (build_request concat_url "GET" "/api/trpc/farms.get" None
          (Some {[ "id" := VInt 7 ]}) None BaseClient_default) 0 2).
Proof.
  refine (proj1 (http_error_after_failures concat_url
                   (refuse_then 1 not_found_json)
                   "GET" "/api/trpc/farms.get" None
                   (Some {[ "id" := VInt 7 ]}) None BaseClient_default
                   fresh_session None
                   1 not_found_json {[ "message" := VStr "Farm not found" ]}
                   _ _ _ _ _ _)).
  - vm_compute. lia.
  - intros i Hi. exists connection_refused.
    destruct i as [|i]; [split; reflexivity | lia].
  - split; [lia|]. intros j Hj.
    destruct j as [|j]; [vm_compute; reflexivity | lia].
  - reflexivity.
  - reflexivity.
  - right. split; [discriminate|]. split; reflexivity.
Defined.


Lemma undecodable_success_is_retried_witness :
  FarmsAPI.delete concat_url (always no_content) BaseClient_default 7
  = (Raises (ExcAPIError (mkAPIError (VStr "Expecting value") 0 ∅)),
     backoff_trace BaseClient_default
       (build_request concat_url "DELETE" "/api/trpc/farms.delete" None
          (Some {[ "id" := VInt 7 ]}) None BaseClient_default) 0 3).
Proof.
  refine (proj1 (undecodable_success_is_retried concat_url (always no_content)
                   "DELETE" "/api/trpc/farms.delete" None
                   (Some {[ "id" := VInt 7 ]}) None BaseClient_default
                   fresh_session None
                   (fun _ => no_content) (fun _ => decode_error) _ _ _)).
  - simpl. lia.
  - intros i Hi. repeat split.
  - split; [vm_compute; lia|]. intros j Hj.
    destruct j as [|[|j]];
      [vm_compute; reflexivity | vm_compute; reflexivity
       | vm_compute in Hj; lia].
Defined.

Lemma token_rotation_witness :
  let self := set_token BaseClient_default "old" in
  let req := build_request concat_url "GET" "/api/trpc/farms.get" None
               (Some {[ "id" := VInt 7 ]})
               (Some {[ "Authorization" := "Basic abc" ]})
               (set_token self "new") in
  req_headers req !! "Authorization" = Some "Bearer new"
  /\ req_method req = "GET"
  /\ req_url req = "http://localhost:3001/api/trpc/farms.get"
  /\ req_json req = None
  /\ req_params req = Some {[ "id" := VInt 7 ]}
  /\ req_timeout req = 30.
Proof.
  refine (token_rotation concat_url (always farm_json)
            "GET" "/api/trpc/farms.get" None (Some {[ "id" := VInt 7 ]})
            (Some {[ "Authorization" := "Basic abc" ]})
            (set_token BaseClient_default "old") fresh_session None "new"
            _ _ _ _ _).
  - discriminate.
  - left. reflexivity.
  - vm_compute. left. reflexivity.
Defined.

Lemma facade_headers_witness :
  let client := set_token BaseClient_default "secret" in
  let req := build_request concat_url "GET" "/api/trpc/crops.list" None
               (Some {[ "farmId" := VInt 5 ]}) None client in
  req_timeout req = 30
  /\ req_headers req
     = <[ "Authorization" := "Bearer secret" ]>
         {[ "Content-Type" := "application/json" ]}.
Proof.
  refine (facade_headers concat_url (always farm_json)
            (set_token BaseClient_default "secret") (crops_list 5 None) _ _).
  vm_compute. left. reflexivity.
Defined.
